(** * SO-101 Setup Builder: the front-end stores and pages, and the service
      operations they call.

    The development follows the TypeScript sources:
    - [stores/wizardStore.ts]     -> [Module WizardStore]
    - [WizardPage] (the second file of [unnamed/part_001])
                                  -> [Module WizardPage]
    - [stores/componentStore.ts]  -> [Module ComponentStore]
    - [pages/ComparisonPage.tsx]  -> [Module ComparisonPage]
    - [stores/setupStore.ts]      -> [Module SetupStore]
    - [SetupPage] (the second file of [pages/ComponentsPage.tsx])
                                  -> [Module SetupPage]

    A zustand store is a record; [set (partial)] is a record update that
    touches the named fields only.  An [async] action is split at its
    [await]: the part before it returns the new state and the request it
    issues, the part after it takes the outcome of the request.  The HTTP
    client ([api/client.ts]) is an argument of the actions.

    The Python service behind the HTTP client is not part of the sources;
    [Module Server] models the comparison operation the properties need
    from its description in the design document. *)

From Stdlib Require Import ZArith String List Bool Lia.
From stdpp Require Import base option list gmap strings sets.

Local Open Scope string_scope.
Local Open Scope list_scope.
Local Open Scope Z_scope.

(** ** JavaScript values *)

(** [!!s] for [s : string | null]: [null] and the empty string are falsy. *)
Definition truthy (s : option string) : bool :=
  match s with
  | Some EmptyString => false
  | Some _ => true
  | None => false
  end.

(** [x && f(x)] for [x : string | undefined]: the string when it is truthy. *)
Definition truthy_string (s : option string) : option string :=
  if truthy s then s else None.

(** The outcome of an awaited HTTP call: axios resolves with the response
    body or rejects (network error or a status outside 2xx). *)
Inductive api_result (A : Type) : Type :=
  | Resolved (data : A)
  | Rejected.
Arguments Resolved {A} data.
Arguments Rejected {A}.

(** ** stores/wizardStore.ts *)

Module WizardStore.

Inductive ExperienceLevel := beginner | intermediate | advanced.
Inductive UseCase := learning | research | production.
Inductive ComputePlatform := cuda | mps | xpu | cpu.
Inductive CameraPreference := basic | realsense | multiple | phone.
Inductive ArmType := single | dual.

(** [interface WizardProfile]: every field is optional.  [budget] is a
    JavaScript number; the slider and the preset buttons of the budget
    step only produce integers. *)
Record WizardProfile := mkProfile {
  experience : option ExperienceLevel;
  budget : option Z;
  use_case : option UseCase;
  compute_platform : option ComputePlatform;
  camera_preference : option CameraPreference;
  arm_type : option ArmType
}.

(** [{}] *)
Definition empty_profile : WizardProfile :=
  mkProfile None None None None None None.

(** [Record<string, unknown>] as built by the wizard page: an object
    whose keys are profile fields; a key that is [undefined] is dropped
    when the body is serialised. *)
Abbreviation StepData := WizardProfile (only parsing).

(** The data fields of [interface WizardState]. *)
Record WizardState := mkState {
  setupId : option string;
  currentStep : Z;
  profile : WizardProfile;
  isLoading : bool;
  error : option string;
  wizardCompleted : bool
}.

(** The body of a successful [PUT /wizard/{setup_id}/step/{n}]. *)
Record UpdateStepResponse := mkUpdateResponse {
  current_step : Z;
  resp_profile : WizardProfile;
  wizard_completed : bool
}.

(** The request [wizardApi.updateStep(setupId, step, data)]. *)
Record UpdateStepRequest := mkUpdateRequest {
  req_setupId : string;
  req_step : Z;
  req_data : StepData
}.

Definition initial : WizardState :=
  mkState None 1 empty_profile false None false.

(** [set({ error: e })] *)
Definition set_error (e : option string) (s : WizardState) : WizardState :=
  mkState (setupId s) (currentStep s) (profile s) (isLoading s) e
          (wizardCompleted s).

(** [set({ isLoading: b, error: e })] *)
Definition set_loading_error (b : bool) (e : option string)
    (s : WizardState) : WizardState :=
  mkState (setupId s) (currentStep s) (profile s) b e (wizardCompleted s).

(** [startWizard], before the [await]. *)
Definition startWizard_begin (s : WizardState) : WizardState :=
  set_loading_error true None s.

(** [startWizard], after the [await]; the response carries [setup_id]. *)
Definition startWizard_resume (r : api_result string) (s : WizardState)
    : WizardState :=
  match r with
  | Resolved id => mkState (Some id) 1 empty_profile false (error s) false
  | Rejected => set_loading_error false (Some "Failed to start wizard") s
  end.

(** [updateStep], before the [await]: without an active setup it sets the
    error and returns; otherwise it marks the store as loading and issues
    the request. *)
Definition updateStep_begin (step : Z) (data : StepData) (s : WizardState)
    : WizardState * option UpdateStepRequest :=
  match truthy_string (setupId s) with
  | None => (set_error (Some "No active setup") s, None)
  | Some id =>
      (set_loading_error true None s, Some (mkUpdateRequest id step data))
  end.

(** [updateStep], after the [await]: the [try] branch copies the response
    into the store, the [catch] branch records the failure. *)
Definition updateStep_resume (r : api_result UpdateStepResponse)
    (s : WizardState) : WizardState :=
  match r with
  | Resolved resp =>
      mkState (setupId s) (current_step resp) (resp_profile resp) false
              (error s) (wizard_completed resp)
  | Rejected => set_loading_error false (Some "Failed to save step") s
  end.

(** [updateStep] run to completion against an HTTP client. *)
Definition updateStep
    (api : UpdateStepRequest -> api_result UpdateStepResponse)
    (step : Z) (data : StepData) (s : WizardState) : WizardState :=
  match updateStep_begin step data s with
  | (s', None) => s'
  | (s', Some req) => updateStep_resume (api req) s'
  end.

(** [goToStep]; the callers pass whole numbers, [currentStep - 1] and the
    numbers of the step list. *)
Definition goToStep (step : Z) (s : WizardState) : WizardState :=
  if (1 <=? step) && (step <=? 5) then
    mkState (setupId s) step (profile s) (isLoading s) (error s)
            (wizardCompleted s)
  else s.

(** [{ ...old, ...new }] on profiles whose present keys are defined. *)
Definition merge_profile (old new : WizardProfile) : WizardProfile :=
  mkProfile
    (from_option Some (experience old) (experience new))
    (from_option Some (budget old) (budget new))
    (from_option Some (use_case old) (use_case new))
    (from_option Some (compute_platform old) (compute_platform new))
    (from_option Some (camera_preference old) (camera_preference new))
    (from_option Some (arm_type old) (arm_type new)).

(** [setProfile] *)
Definition setProfile (p : WizardProfile) (s : WizardState) : WizardState :=
  mkState (setupId s) (currentStep s) (merge_profile (profile s) p)
          (isLoading s) (error s) (wizardCompleted s).

(** [reset] *)
Definition reset (s : WizardState) : WizardState := initial.

End WizardStore.

(** ** WizardPage (unnamed/part_001) *)

Module WizardPage.
Import WizardStore.

(** The [switch] of [handleNext]: the fields sent for the current step.
    A step outside 1..5 sends the empty object. *)
Definition stepData (s : WizardState) : StepData :=
  let p := profile s in
  match currentStep s with
  | 1 => mkProfile (experience p) None None None None None
  | 2 => mkProfile None (budget p) None None None None
  | 3 => mkProfile None None (use_case p) None None (arm_type p)
  | 4 => mkProfile None None None (compute_platform p) None None
  | 5 => mkProfile None None None None (camera_preference p) None
  | _ => empty_profile
  end.

(** [handleNext], before the [await] inside [updateStep]. *)
Definition handleNext_begin (s : WizardState)
    : WizardState * option UpdateStepRequest :=
  updateStep_begin (currentStep s) (stepData s) s.

(** [handleNext] run to completion. *)
Definition handleNext
    (api : UpdateStepRequest -> api_result UpdateStepResponse)
    (s : WizardState) : WizardState :=
  updateStep api (currentStep s) (stepData s) s.

(** [handleBack] *)
Definition handleBack (s : WizardState) : WizardState :=
  if 1 <? currentStep s then goToStep (currentStep s - 1) s else s.

(** [canProceed]: [!!x] on an optional enumeration is "x is present",
    as no value of the enumerations is the empty string. *)
Definition canProceed (s : WizardState) : bool :=
  let p := profile s in
  match currentStep s with
  | 1 => bool_decide (is_Some (experience p))
  | 2 => bool_decide (is_Some (budget p))
  | 3 => bool_decide (is_Some (use_case p))
  | 4 => bool_decide (is_Some (compute_platform p))
  | 5 => bool_decide (is_Some (camera_preference p))
  | _ => false
  end.

(** The [disabled] attribute of the Next button. *)
Definition next_disabled (s : WizardState) : bool :=
  negb (canProceed s) || isLoading s.

(** A click on the Next button: a disabled button does not run its
    handler. *)
Definition click_next_begin (s : WizardState)
    : WizardState * option UpdateStepRequest :=
  if next_disabled s then (s, None) else handleNext_begin s.

Definition click_next
    (api : UpdateStepRequest -> api_result UpdateStepResponse)
    (s : WizardState) : WizardState :=
  if next_disabled s then s else handleNext api s.

(** The step write a click on Next submits, if any. *)
Definition submitted (s : WizardState) : option UpdateStepRequest :=
  snd (click_next_begin s).

(** The required fields of each step in the reading that asks step 3 for
    both of the fields it sends, the use case and the arm type; to be
    compared with [canProceed], which is what the page checks. *)
Definition required_fields_spec (step : Z) (p : WizardProfile) : bool :=
  match step with
  | 1 => bool_decide (is_Some (experience p))
  | 2 => bool_decide (is_Some (budget p))
  | 3 => bool_decide (is_Some (use_case p))
         && bool_decide (is_Some (arm_type p))
  | 4 => bool_decide (is_Some (compute_platform p))
  | 5 => bool_decide (is_Some (camera_preference p))
  | _ => false
  end.

End WizardPage.

(** ** stores/componentStore.ts *)

Module ComponentStore.

Section store.
(** [Component], [Category] and [ComponentFilters] are records the
    compare actions never look into. *)
Context {Component Category ComponentFilters : Type}.
Context (defaultFilters : ComponentFilters).

(** The data fields of [interface ComponentState].  Component ids are
    the integer keys of the catalog. *)
Record ComponentState := mkState {
  components : list Component;
  categories : list Category;
  selectedComponents : list Component;
  compareList : list Z;
  filters : ComponentFilters;
  totalPages : Z;
  total : Z;
  isLoading : bool;
  error : option string
}.

Definition initial : ComponentState :=
  mkState [] [] [] [] defaultFilters 0 0 false None.

(** [set({ compareList: l })] *)
Definition set_compareList (l : list Z) (s : ComponentState)
    : ComponentState :=
  mkState (components s) (categories s) (selectedComponents s) l
          (filters s) (totalPages s) (total s) (isLoading s) (error s).

(** [Array.prototype.includes] on a list of integers. *)
Definition includes (l : list Z) (x : Z) : bool := bool_decide (x ∈ l).

(** [addToCompare] *)
Definition addToCompare (componentId : Z) (s : ComponentState)
    : ComponentState :=
  if 5 <=? Z.of_nat (length (compareList s)) then s
  else if includes (compareList s) componentId then s
  else set_compareList (compareList s ++ [componentId]) s.

(** [removeFromCompare] *)
Definition removeFromCompare (componentId : Z) (s : ComponentState)
    : ComponentState :=
  set_compareList (filter (λ id, id ≠ componentId) (compareList s)) s.

(** [clearCompare] *)
Definition clearCompare (s : ComponentState) : ComponentState :=
  set_compareList [] s.

(** What the compare list of a session satisfies: no id twice, at most
    five ids. *)
Definition compare_inv (l : list Z) : Prop :=
  NoDup l ∧ (length l ≤ 5)%nat.

(** The compare actions a page can dispatch. *)
Inductive Action :=
  | AddToCompare (componentId : Z)
  | RemoveFromCompare (componentId : Z)
  | ClearCompare.

Definition dispatch (s : ComponentState) (a : Action) : ComponentState :=
  match a with
  | AddToCompare id => addToCompare id s
  | RemoveFromCompare id => removeFromCompare id s
  | ClearCompare => clearCompare s
  end.

(** The store after a sequence of compare actions; the store is not
    persisted, so every session starts from [initial], and its other
    actions do not write [compareList]. *)
Definition run (acts : list Action) : ComponentState :=
  fold_left dispatch acts initial.

End store.

Arguments ComponentState : clear implicits.
Arguments mkState {_ _ _}.

End ComponentStore.

(** ** pages/ComparisonPage.tsx *)

Module ComparisonPage.

(** What the page reads: the compare list of the store and its own
    [useState] cells. *)
Record PageState := mkPage {
  compareList : list Z;
  isLoading : bool;
  error : option string;
  has_comparison : bool
}.

(** [fetchComparison]: the request [comparisonApi.compare(compareList)]. *)
Definition fetchComparison (p : PageState) : list Z := compareList p.

(** The [useEffect] on [compareList]. *)
Definition effect (p : PageState) : option (list Z) :=
  if 2 <=? Z.of_nat (length (compareList p)) then Some (fetchComparison p)
  else None.

Inductive View :=
  | SelectAtLeastTwo (selected : nat)
  | Spinner
  | ErrorWithRetry (message : string)
  | Table
  | Blank.

(** The rendering: the early return, then the conditional chain. *)
Definition render (p : PageState) : View :=
  if Z.of_nat (length (compareList p)) <? 2 then
    SelectAtLeastTwo (length (compareList p))
  else if isLoading p then Spinner
  else if truthy (error p) then ErrorWithRetry (default EmptyString (error p))
  else if has_comparison p then Table
  else Blank.

(** A click on Retry, which exists in the error view only. *)
Definition click_retry (p : PageState) : option (list Z) :=
  match render p with
  | ErrorWithRetry _ => Some (fetchComparison p)
  | _ => None
  end.

Inductive Event := EffectRuns | RetryClicked.

(** The comparison request an event issues, if any. *)
Definition request (p : PageState) (e : Event) : option (list Z) :=
  match e with
  | EffectRuns => effect p
  | RetryClicked => click_retry p
  end.

End ComparisonPage.

(** ** stores/setupStore.ts *)

Module SetupStore.

Inductive Role := user | assistant.

(** [interface ChatMessage] *)
Record ChatMessage := mkMessage {
  role : Role;
  content : string
}.

(** The request [recommendationsApi.chat(setupId, message, history)]. *)
Record ChatRequest := mkChatRequest {
  chat_setup_id : string;
  chat_message : string;
  chat_history : list ChatMessage
}.

Section store.
(** [Recommendations] and [SetupPricing] are records the chat action
    never looks into. *)
Context {Recommendations SetupPricing : Type}.

(** The data fields of [interface SetupState]. *)
Record SetupState := mkState {
  recommendations : option Recommendations;
  pricing : option SetupPricing;
  chatHistory : list ChatMessage;
  isLoading : bool;
  error : option string
}.

Definition initial : SetupState := mkState None None [] false None.

(** [set({ isLoading: b, error: e })] *)
Definition set_loading_error (b : bool) (e : option string)
    (s : SetupState) : SetupState :=
  mkState (recommendations s) (pricing s) (chatHistory s) b e.

(** [generateRecommendations], before and after the [await]. *)
Definition generateRecommendations_begin (setupId : string)
    (s : SetupState) : SetupState * string :=
  (set_loading_error true None s, setupId).

Definition generateRecommendations_resume
    (r : api_result Recommendations) (s : SetupState) : SetupState :=
  match r with
  | Resolved data =>
      mkState (Some data) (pricing s) (chatHistory s) false (error s)
  | Rejected =>
      set_loading_error false (Some "Failed to generate recommendations") s
  end.

(** What [sendChatMessage] keeps across its [await]: the transcript with
    the user message appended. *)
Record ChatPending := mkPending {
  newHistory : list ChatMessage;
  request : ChatRequest
}.

(** [sendChatMessage], before the [await]. *)
Definition sendChatMessage_begin (setupId message : string)
    (s : SetupState) : SetupState * ChatPending :=
  let chatHistory := chatHistory s in
  let newHistory := chatHistory ++ [mkMessage user message] in
  (mkState (recommendations s) (pricing s) newHistory true (error s),
   mkPending newHistory
     (mkChatRequest setupId message
        (map (λ m, mkMessage (role m) (content m)) chatHistory))).

Definition errorMessage : string :=
  "Sorry, I encountered an error. Please try again.".

(** [sendChatMessage], after the [await]: the new store and the value
    the action returns. *)
Definition sendChatMessage_resume (k : ChatPending)
    (r : api_result string) (s : SetupState) : SetupState * string :=
  match r with
  | Resolved assistantMessage =>
      (mkState (recommendations s) (pricing s)
               (newHistory k ++ [mkMessage assistant assistantMessage])
               false (error s),
       assistantMessage)
  | Rejected =>
      (mkState (recommendations s) (pricing s)
               (newHistory k ++ [mkMessage assistant errorMessage])
               false (Some "Chat request failed"),
       errorMessage)
  end.

(** [sendChatMessage] run to completion against an HTTP client. *)
Definition sendChatMessage (api : ChatRequest -> api_result string)
    (setupId message : string) (s : SetupState) : SetupState * string :=
  let '(s', k) := sendChatMessage_begin setupId message s in
  sendChatMessage_resume k (api (request k)) s'.

(** [clearChat] *)
Definition clearChat (s : SetupState) : SetupState :=
  mkState (recommendations s) (pricing s) [] (isLoading s) (error s).

End store.

Arguments SetupState : clear implicits.
Arguments mkState {_ _}.

End SetupStore.

(** ** SetupPage (pages/ComponentsPage.tsx, second file) *)

Module SetupPage.

Inductive Tab := TabRecommendations | TabChat | TabExport.

(** What the page reads: the route parameter, the wizard store, the setup
    store and its own [useState] cell. *)
Record PageState := mkPage {
  setupId : option string;
  wizardCompleted : bool;
  has_recommendations : bool;
  isLoading : bool;
  error : option string;
  activeTab : Tab
}.

(** The store actions the page can call with the setup id. *)
Inductive Call :=
  | GenerateRecommendations (setupId : string)
  | FetchPricing (setupId : string).

(** The [useEffect] of the page. *)
Definition effect (p : PageState) : list Call :=
  match truthy_string (setupId p) with
  | Some id =>
      if wizardCompleted p && negb (has_recommendations p)
      then [GenerateRecommendations id; FetchPricing id]
      else []
  | None => []
  end.

(** The main column of the recommendations tab. *)
Inductive Panel := Generating | ErrorWithRetry | RecommendationList | Empty.

Inductive View :=
  | WizardNotComplete
  | Setup (tab : Tab) (panel : Panel) (refresh_disabled : bool).

Definition panel (p : PageState) : Panel :=
  if isLoading p && negb (has_recommendations p) then Generating
  else if truthy (error p) then ErrorWithRetry
  else if has_recommendations p then RecommendationList
  else Empty.

(** The rendering: the early return for an incomplete wizard, then the
    tabs. *)
Definition render (p : PageState) : View :=
  if negb (wizardCompleted p) then WizardNotComplete
  else Setup (activeTab p) (panel p) (isLoading p).

(** [() => setupId && generateRecommendations(setupId)] *)
Definition regenerate (p : PageState) : list Call :=
  match truthy_string (setupId p) with
  | Some id => [GenerateRecommendations id]
  | None => []
  end.

(** A click on Retry, which exists in the error panel of the
    recommendations tab. *)
Definition click_retry (p : PageState) : list Call :=
  match render p with
  | Setup TabRecommendations ErrorWithRetry _ => regenerate p
  | _ => []
  end.

(** A click on Refresh Recommendations, in the side column of the
    recommendations tab; the button is disabled while loading. *)
Definition click_refresh (p : PageState) : list Call :=
  match render p with
  | Setup TabRecommendations _ false => regenerate p
  | _ => []
  end.

Inductive Event := EffectRuns | RetryClicked | RefreshClicked.

(** The store actions an event calls. *)
Definition calls (p : PageState) (e : Event) : list Call :=
  match e with
  | EffectRuns => effect p
  | RetryClicked => click_retry p
  | RefreshClicked => click_refresh p
  end.

End SetupPage.

(** ** The comparison operation behind the HTTP client

    The Python service is not among the sources.  The definitions of this
    module follow the design document (sections 3 and 4.4), sentence by
    sentence; the HTTP framing is outside its scope. *)

Module Server.

Section comparison.
(** Specification values are untyped; the design document compares
    them "after normalizing to string form".  The value type and its
    string form are parameters. *)
Context {V : Type} (to_string : V → string).

(** Modelled from the spec: the Component of the data model, with the
    fields the comparison reads; [lowest_price] is the minimum vendor
    price in the smallest unit of the catalog's single currency. *)
Record Component := mkComponent {
  comp_id : Z;
  comp_name : string;
  specifications : gmap string V;
  is_default_for_so101 : bool;
  lowest_price : option Z
}.

(** Modelled from the spec: the ComparisonResult of the data model,
    without the row table, of which the document says nothing more
    than that it exists. *)
Record ComparisonResult := mkResult {
  res_components : list Component;
  best_value_id : option Z;
  recommended_id : option Z;
  common_specs : gset string;
  differing_specs : gset string
}.

(** Modelled from the spec: the failures of [compare],
    InvalidComparisonSize and "404 if any missing". *)
Inductive CompareError := InvalidComparisonSize | ComponentNotFound.

(** Modelled from the spec: "the union of specification keys across
    all selected components". *)
Definition spec_keys (cs : list Component) : gset string :=
  ⋃ ((λ c, dom (specifications c)) <$> cs).

(** Modelled from the spec: "a key is common if present (even if
    differing) in all". *)
Definition is_common (cs : list Component) (k : string) : Prop :=
  Forall (λ c, is_Some (specifications c !! k)) cs.

(** Modelled from the spec: a component's value for a key in the form the
    values are compared in, "by simple equality after normalizing to
    string form"; a component that lacks the key has none. *)
Definition value_at (k : string) (c : Component) : option string :=
  to_string <$> specifications c !! k.

(** Modelled from the spec: "a key is differing if at least one
    component's value differs from another's", the values being then "not
    identical across all returned components"; a component that lacks the
    key does not have the value of one that has it. *)
Definition is_differing (cs : list Component) (k : string) : Prop :=
  Exists (λ c1, Exists (λ c2, value_at k c1 ≠ value_at k c2) cs) cs.

#[export] Instance is_common_dec cs k : Decision (is_common cs k).
Proof. unfold is_common. apply _. Defined.

#[export] Instance is_differing_dec cs k : Decision (is_differing cs k).
Proof. unfold is_differing. apply _. Defined.

(** Modelled from the spec: one step of the search for "the component
    with the numerically lowest lowest_price among those that have a price
    (first encountered wins)": the best id and price so far. *)
Definition cheaper (best : option (Z * Z)) (c : Component)
    : option (Z * Z) :=
  match lowest_price c, best with
  | None, _ => best
  | Some p, None => Some (comp_id c, p)
  | Some p, Some (_, q) => if p <? q then Some (comp_id c, p) else best
  end.

(** Modelled from the spec: [best_value_id] over the loaded components,
    absent when none has a price. *)
Definition best_value (cs : list Component) : option Z :=
  fst <$> fold_left cheaper cs None.

(** Modelled from the spec: [recommended_id], "the first component, in
    input order, with is_default_for_so101 = true (none if no such
    component)". *)
Definition recommended (cs : list Component) : option Z :=
  comp_id <$> head (filter (λ c, is_default_for_so101 c = true) cs).

(** Modelled from the spec: the comparison engine's [compare], which
    "requires 2–5 distinct identifiers, else fails with
    InvalidComparisonSize.  Loads all referenced components (404 if any
    missing)", then computes the key sets and the two flagged ids. *)
Definition compare (catalog : gmap Z Component) (component_ids : list Z)
    : CompareError + ComparisonResult :=
  let n := Z.of_nat (length component_ids) in
  if bool_decide (2 ≤ n ≤ 5 ∧ NoDup component_ids) then
    match mapM (λ i, catalog !! i) component_ids with
    | None => inl ComponentNotFound
    | Some cs =>
        inr (mkResult cs (best_value cs) (recommended cs)
               (filter (is_common cs) (spec_keys cs))
               (filter (is_differing cs) (spec_keys cs)))
    end
  else inl InvalidComparisonSize.

End comparison.

Arguments Component : clear implicits.
Arguments ComparisonResult : clear implicits.
Arguments mkComponent {V}.

End Server.

(** ** Concrete stores, profiles and catalogs *)

Module Examples.
Import WizardStore.

(** A wizard session on step 3 whose user picked a use case and no arm
    type. *)
Definition wizard_step3 : WizardState :=
  mkState (Some "s-1") 3
    (mkProfile (Some beginner) (Some 500) (Some learning) None None None)
    false None false.

(** A wizard session with a setup whose save is in progress or failing. *)
Definition wizard_step1 : WizardState :=
  mkState (Some "s-1") 1
    (mkProfile (Some beginner) None None None None None)
    false None false.

(** A component store with three entries in the compare list; the record
    types the compare actions do not read are trivial here. *)
Definition store_three : ComponentStore.ComponentState unit unit unit :=
  ComponentStore.mkState [] [] [] [11; 12; 13] tt 0 0 false None.

(** The comparison page over that compare list, after a failed request. *)
Definition page_three_failed : ComparisonPage.PageState :=
  ComparisonPage.mkPage [11; 12; 13] false (Some "Failed to load comparison")
    false.

(** A setup store with one exchange in the transcript. *)
Definition chat_one : SetupStore.SetupState unit unit :=
  SetupStore.mkState None None
    [SetupStore.mkMessage SetupStore.user "Which servo?";
     SetupStore.mkMessage SetupStore.assistant "The STS3215."]
    false None.

(** The setup page of a completed wizard whose generation failed. *)
Definition setup_page_failed : SetupPage.PageState :=
  SetupPage.mkPage (Some "s-1") true false false
    (Some "Failed to generate recommendations") SetupPage.TabRecommendations.

(** The setup page of a wizard that is not complete. *)
Definition setup_page_incomplete : SetupPage.PageState :=
  SetupPage.mkPage (Some "s-1") false false false None
    SetupPage.TabRecommendations.

End Examples.

(** ** WizardPage: navigation, effects and the step forms *)

Module WizardNavigation.
Import WizardStore WizardPage.

(** The Back button: [disabled={currentStep === 1}], handler
    [handleBack]. *)
Definition click_back (s : WizardState) : WizardState :=
  if currentStep s =? 1 then s else handleBack s.

(** The button of the step indicator numbered [n]:
    [disabled={step.number > currentStep}], handler
    [step.number < currentStep && goToStep(step.number)]. *)
Definition click_indicator (n : Z) (s : WizardState) : WizardState :=
  if currentStep s <? n then s
  else if n <? currentStep s then goToStep n s
  else s.

(** The numbers of the [steps] list. *)
Definition step_numbers : list Z := [1; 2; 3; 4; 5].

(** The navigation the page offers besides Next. *)
Inductive NavEvent :=
  | BackClicked
  | IndicatorClicked (n : Z).

Definition navigate (e : NavEvent) (s : WizardState) : WizardState :=
  match e with
  | BackClicked => click_back s
  | IndicatorClicked n => click_indicator n s
  end.

(** What the two [useEffect]s of the page do. *)
Inductive PageEffect :=
  | StartWizard
  | Navigate (path : string).

(** [if (!setupId) startWizard()] and
    [if (wizardCompleted && setupId) navigate(`/setup/${setupId}`)]. *)
Definition effects (s : WizardState) : list PageEffect :=
  (if truthy (setupId s) then [] else [StartWizard])
  ++ (if wizardCompleted s then
        match truthy_string (setupId s) with
        | Some id => [Navigate ("/setup/" ++ id)%string]
        | None => []
        end
      else []).

(** One answer given in a step form: the [onChange] of a radio button, or
    [handleChange] of the budget step. *)
Inductive Answer :=
  | AnswerExperience (v : ExperienceLevel)
  | AnswerBudget (v : Z)
  | AnswerUseCase (v : UseCase)
  | AnswerArmType (v : ArmType)
  | AnswerCompute (v : ComputePlatform)
  | AnswerCamera (v : CameraPreference).

(** The object literal the form passes to [setProfile]. *)
Definition answer_object (a : Answer) : WizardProfile :=
  match a with
  | AnswerExperience v => mkProfile (Some v) None None None None None
  | AnswerBudget v => mkProfile None (Some v) None None None None
  | AnswerUseCase v => mkProfile None None (Some v) None None None
  | AnswerArmType v => mkProfile None None None None None (Some v)
  | AnswerCompute v => mkProfile None None None (Some v) None None
  | AnswerCamera v => mkProfile None None None None (Some v) None
  end.

(** The step whose form holds the control: [currentStep === n && <Form/>]. *)
Definition answer_step (a : Answer) : Z :=
  match a with
  | AnswerExperience _ => 1
  | AnswerBudget _ => 2
  | AnswerUseCase _ => 3
  | AnswerArmType _ => 3
  | AnswerCompute _ => 4
  | AnswerCamera _ => 5
  end.


(** The answers that fill a field [canProceed] looks at: all but the arm
    type. *)
Definition gate_answer (a : Answer) : bool :=
  match a with
  | AnswerArmType _ => false
  | _ => true
  end.

(** Giving an answer: the form is on screen on its step only. *)
Definition give_answer (a : Answer) (s : WizardState) : WizardState :=
  if currentStep s =? answer_step a then setProfile (answer_object a) s
  else s.

(** [useState(profile.budget || 500)]: the amount the budget step shows
    when it mounts. *)
Definition budget_shown (p : WizardProfile) : Z :=
  match budget p with
  | Some 0 => 500
  | Some b => b
  | None => 500
  end.

End WizardNavigation.

(** ** stores/componentStore.ts: filters, loading and selection *)

Module Catalog.
Import ComponentStore.

(** [interface ComponentFilters]; the price bounds are never set by the
    pages and are whole numbers here. *)
Record ComponentFilters := mkFilters {
  category_id : option Z;
  category_slug : option string;
  search : option string;
  min_price : option Z;
  max_price : option Z;
  is_default_for_so101 : option bool;
  arm_type : option string;
  in_stock_only : option bool;
  page : Z;
  page_size : Z
}.

(** [Partial<ComponentFilters>]: a key is absent ([None]) or present; a
    present optional key holds a value or [undefined], and the spread
    copies either.  For [page] an absent key and [undefined] read the
    same in [newFilters.page || 1]. *)
Record FiltersPatch := mkPatch {
  set_category_id : option (option Z);
  set_category_slug : option (option string);
  set_search : option (option string);
  set_min_price : option (option Z);
  set_max_price : option (option Z);
  set_is_default_for_so101 : option (option bool);
  set_arm_type : option (option string);
  set_in_stock_only : option (option bool);
  set_page : option Z;
  set_page_size : option Z
}.

(** [{}] *)
Definition no_change : FiltersPatch :=
  mkPatch None None None None None None None None None None.

(** [defaultFilters] *)
Definition defaultFilters : ComponentFilters :=
  mkFilters None None None None None None None None 1 20.

(** [newFilters.page || 1]: zero is falsy. *)
Definition page_or_1 (p : option Z) : Z :=
  match p with
  | Some 0 => 1
  | Some n => n
  | None => 1
  end.

(** [{ ...state.filters, ...newFilters, page: newFilters.page || 1 }] *)
Definition merge_filters (old : ComponentFilters) (new : FiltersPatch)
    : ComponentFilters :=
  mkFilters
    (default (category_id old) (set_category_id new))
    (default (category_slug old) (set_category_slug new))
    (default (search old) (set_search new))
    (default (min_price old) (set_min_price new))
    (default (max_price old) (set_max_price new))
    (default (is_default_for_so101 old) (set_is_default_for_so101 new))
    (default (arm_type old) (set_arm_type new))
    (default (in_stock_only old) (set_in_stock_only new))
    (page_or_1 (set_page new))
    (default (page_size old) (set_page_size new)).

Section store.
(** [Component] and [Category] are records of the catalog; of a component
    the selection reads the [id]. *)
Context {Component Category : Type}.
Context (component_id : Component → Z).

Local Abbreviation State :=
  (ComponentState Component Category ComponentFilters).

(** The body of a successful [GET /components]. *)
Record ListResponse := mkList {
  items : list Component;
  total_pages : Z;
  resp_total : Z
}.

(** [set({ filters: f })] *)
Definition set_filters (f : ComponentFilters) (s : State) : State :=
  mkState (components s) (categories s) (selectedComponents s)
          (compareList s) f (totalPages s) (total s) (isLoading s) (error s).

(** [set({ selectedComponents: l })] *)
Definition set_selected (l : list Component) (s : State) : State :=
  mkState (components s) (categories s) l (compareList s) (filters s)
          (totalPages s) (total s) (isLoading s) (error s).

(** [fetchComponents], before the [await]: the request carries the
    filters of the store at that moment. *)
Definition fetchComponents_begin (s : State) : State * ComponentFilters :=
  (mkState (components s) (categories s) (selectedComponents s)
           (compareList s) (filters s) (totalPages s) (total s) true None,
   filters s).

(** [fetchComponents], after the [await]. *)
Definition fetchComponents_resume (r : api_result ListResponse) (s : State)
    : State :=
  match r with
  | Resolved data =>
      mkState (items data) (categories s) (selectedComponents s)
              (compareList s) (filters s) (total_pages data)
              (resp_total data) false (error s)
  | Rejected =>
      mkState (components s) (categories s) (selectedComponents s)
              (compareList s) (filters s) (totalPages s) (total s) false
              (Some "Failed to load components")
  end.

(** [fetchComponents] run to completion against an HTTP client. *)
Definition fetchComponents
    (api : ComponentFilters → api_result ListResponse) (s : State) : State :=
  let '(s', req) := fetchComponents_begin s in
  fetchComponents_resume (api req) s'.

(** [fetchCategories], after the [await]; before it the store is not
    written.  The [catch] branch logs to the console. *)
Definition fetchCategories_resume (r : api_result (list Category))
    (s : State) : State :=
  match r with
  | Resolved data =>
      mkState (components s) data (selectedComponents s) (compareList s)
              (filters s) (totalPages s) (total s) (isLoading s) (error s)
  | Rejected => s
  end.

(** [setFilters], up to the [await] of the [fetchComponents] it starts. *)
Definition setFilters (newFilters : FiltersPatch) (s : State)
    : State * ComponentFilters :=
  fetchComponents_begin
    (set_filters (merge_filters (filters s) newFilters) s).

(** [resetFilters], up to the [await] of the [fetchComponents] it
    starts. *)
Definition resetFilters (s : State) : State * ComponentFilters :=
  fetchComponents_begin (set_filters defaultFilters s).

(** [state.selectedComponents.find((c) => c.id === component.id)] as a
    condition. *)
Definition is_selected (l : list Component) (id : Z) : bool :=
  existsb (λ c, component_id c =? id) l.

(** [selectComponent] *)
Definition selectComponent (component : Component) (s : State) : State :=
  if is_selected (selectedComponents s) (component_id component) then s
  else set_selected (selectedComponents s ++ [component]) s.

(** [deselectComponent] *)
Definition deselectComponent (componentId : Z) (s : State) : State :=
  set_selected
    (filter (λ c, component_id c ≠ componentId) (selectedComponents s)) s.

(** *** ComponentsPage *)

(** [handleSearch]: [setFilters({ search: searchInput || undefined })]. *)
Definition handleSearch (searchInput : string) (s : State)
    : State * ComponentFilters :=
  setFilters
    (mkPatch None None
       (Some (match searchInput with
              | EmptyString => None
              | _ => Some searchInput
              end))
       None None None None None None None) s.

(** [handleCategoryFilter] *)
Definition handleCategoryFilter (categorySlug : option string) (s : State)
    : State * ComponentFilters :=
  setFilters
    (mkPatch None (Some categorySlug) None None None None None None None None)
    s.

(** The checkbox "SO-101 Defaults Only":
    [setFilters({ is_default_for_so101: checked ? true : undefined })]. *)
Definition check_defaults_only (checked : bool) (s : State)
    : State * ComponentFilters :=
  setFilters
    (mkPatch None None None None None
       (Some (if checked then Some true else None)) None None None None) s.

(** The checkbox "In Stock Only":
    [setFilters({ in_stock_only: checked })]. *)
Definition check_in_stock_only (checked : bool) (s : State)
    : State * ComponentFilters :=
  setFilters
    (mkPatch None None None None None None None (Some (Some checked)) None
       None) s.

(** [handlePageChange] *)
Definition handlePageChange (page : Z) (s : State)
    : State * ComponentFilters :=
  setFilters
    (mkPatch None None None None None None None None (Some page) None) s.

(** A change of the filter bar. *)
Inductive FilterEvent :=
  | SearchSubmitted (searchInput : string)
  | CategoryClicked (categorySlug : option string)
  | DefaultsOnlyToggled (checked : bool)
  | InStockOnlyToggled (checked : bool).

Definition change_filter (e : FilterEvent) (s : State)
    : State * ComponentFilters :=
  match e with
  | SearchSubmitted q => handleSearch q s
  | CategoryClicked c => handleCategoryFilter c s
  | DefaultsOnlyToggled b => check_defaults_only b s
  | InStockOnlyToggled b => check_in_stock_only b s
  end.

(** The two pagination buttons, rendered when [totalPages > 1]; the
    previous button is disabled on page 1, the next button on the last
    page.  A click that does nothing issues no request. *)
Inductive PageButton := PreviousPage | NextPage.

Definition click_page_button (b : PageButton) (s : State)
    : State * option ComponentFilters :=
  if totalPages s <=? 1 then (s, None)
  else
    match b with
    | PreviousPage =>
        if page (filters s) =? 1 then (s, None)
        else
          let '(s', req) := handlePageChange (page (filters s) - 1) s in
          (s', Some req)
    | NextPage =>
        if page (filters s) =? totalPages s then (s, None)
        else
          let '(s', req) := handlePageChange (page (filters s) + 1) s in
          (s', Some req)
    end.

(** The compare button of a component card:
    [onClick={isInCompare ? onRemoveFromCompare : onAddToCompare}] with
    [isInCompare = compareList.includes(component.id)]. *)
Definition click_compare (id : Z) (s : State) : State :=
  if includes (compareList s) id then removeFromCompare id s
  else addToCompare id s.

End store.

Arguments ListResponse : clear implicits.
Arguments mkList {_}.

(** *** ComparisonPage over the store *)

(** What the comparison page reads of the store, next to its own cells. *)
Definition comparison_page {Component Category : Type}
    (s : ComponentState Component Category ComponentFilters)
    (isLoading : bool) (error : option string) (has_comparison : bool)
    : ComparisonPage.PageState :=
  ComparisonPage.mkPage (compareList s) isLoading error has_comparison.

End Catalog.

(** ** stores/setupStore.ts: pricing and exports; SetupPage over the
       stores *)

Module SetupActions.
Import SetupStore.

(** The three export actions of the store. *)
Inductive ExportKind := ExportPdf | ExportJson | ExportShoppingList.

(** The error each sets in its [catch] branch. *)
Definition export_failure (k : ExportKind) : string :=
  match k with
  | ExportPdf => "Failed to export PDF"
  | ExportJson => "Failed to export JSON"
  | ExportShoppingList => "Failed to generate shopping list"
  end.

Section store.
Context {Recommendations SetupPricing : Type}.

Local Abbreviation State := (SetupState Recommendations SetupPricing).

(** [fetchPricing], before and after the [await]. *)
Definition fetchPricing_begin (setupId : string) (s : State)
    : State * string :=
  (set_loading_error true None s, setupId).

Definition fetchPricing_resume (r : api_result SetupPricing) (s : State)
    : State :=
  match r with
  | Resolved data =>
      mkState (recommendations s) (Some data) (chatHistory s) false (error s)
  | Rejected => set_loading_error false (Some "Failed to fetch pricing") s
  end.

(** [exportPdf], [exportJson] and [exportShoppingList] before the
    [await]. *)
Definition export_begin (k : ExportKind) (setupId : string) (s : State)
    : State * string :=
  (set_loading_error true None s, setupId).

(** The same after the [await]: the new store and what the action does,
    return the response body or rethrow ([Rejected]). *)
Definition export_resume {A : Type} (k : ExportKind) (r : api_result A)
    (s : State) : State * api_result A :=
  match r with
  | Resolved data =>
      (mkState (recommendations s) (pricing s) (chatHistory s) false
               (error s),
       Resolved data)
  | Rejected => (set_loading_error false (Some (export_failure k)) s, Rejected)
  end.

(** An export run to completion against an HTTP client. *)
Definition export {A : Type} (api : string → api_result A) (k : ExportKind)
    (setupId : string) (s : State) : State * api_result A :=
  let '(s', req) := export_begin k setupId s in
  export_resume k (api req) s'.

(** [reset] *)
Definition reset (s : State) : State := initial.

(** *** SetupPage *)

(** How a click on an export button ends. *)
Inductive ExportOutcome :=
  | NothingDone
  | Downloaded (filename : string)
  | ErrorLogged
  | ResultDropped
  | UnhandledRejection.

(** [handleExportPdf] and [handleExportJson]: without a setup id they
    return; the [try] downloads the body under a name made of the id, the
    [catch] logs to the console.  The shopping-list button calls
    [setupId && exportShoppingList(setupId)] with neither: the body is
    dropped and a rejection stays unhandled.  The three buttons are
    disabled while the store is loading. *)
Definition click_export {A : Type} (api : string → api_result A)
    (k : ExportKind) (setupId : option string) (s : State)
    : State * ExportOutcome :=
  match (if isLoading s then None else truthy_string setupId) with
  | None => (s, NothingDone)
  | Some id =>
      let '(s', r) := export api k id s in
      (s',
       match k, r with
       | ExportPdf, Resolved _ =>
           Downloaded ("so101-setup-" ++ id ++ ".pdf")%string
       | ExportJson, Resolved _ =>
           Downloaded ("so101-setup-" ++ id ++ ".json")%string
       | ExportShoppingList, Resolved _ => ResultDropped
       | ExportPdf, Rejected => ErrorLogged
       | ExportJson, Rejected => ErrorLogged
       | ExportShoppingList, Rejected => UnhandledRejection
       end)
  end.

(** What the page reads of the route, the wizard store and the setup
    store, with its own tab cell. *)
Definition setup_page (setupId : option string) (wizardCompleted : bool)
    (s : State) (tab : SetupPage.Tab) : SetupPage.PageState :=
  SetupPage.mkPage setupId wizardCompleted
    (bool_decide (is_Some (recommendations s))) (isLoading s) (error s) tab.

End store.

End SetupActions.

(** ** Concrete stores for the further properties *)

Module MoreExamples.
Import WizardStore.

(** A wizard session on step 2 before the budget slider is touched. *)
Definition wizard_step2 : WizardState :=
  mkState (Some "s-1") 2
    (mkProfile (Some beginner) None None None None None)
    false None false.

(** A completed wizard session. *)
Definition wizard_done : WizardState :=
  mkState (Some "s-1") 5
    (mkProfile (Some beginner) (Some 500) (Some learning) (Some cpu)
               (Some basic) (Some single))
    false None true.

(** A wizard session on step 5 with the camera chosen. *)
Definition wizard_step5 : WizardState :=
  mkState (Some "s-1") 5
    (mkProfile (Some beginner) (Some 500) (Some learning) (Some cpu)
               (Some basic) (Some single))
    false None false.

(** The answer of the service to the last step. *)
Definition response_done : UpdateStepResponse :=
  mkUpdateResponse 5
    (mkProfile (Some beginner) (Some 500) (Some learning) (Some cpu)
               (Some basic) (Some single))
    true.

(** A catalog store on page 2 of 3 with three ids to compare and one
    selected component; a component is its id and its name here. *)
Definition catalog_page2
    : ComponentStore.ComponentState (Z * string) unit
        Catalog.ComponentFilters :=
  ComponentStore.mkState [] [] [(11, "STS3215")] [11; 12; 13]
    (Catalog.mkFilters None (Some "motors") None None None None None None 2
       20)
    3 45 false None.

(** A setup store with recommendations (a summary line here) whose last
    chat call failed. *)
Definition setup_after_chat_failure : SetupStore.SetupState string Z :=
  SetupStore.mkState (Some "Six servos and a driver board.") None
    [SetupStore.mkMessage SetupStore.user "Which servo?";
     SetupStore.mkMessage SetupStore.assistant SetupStore.errorMessage]
    false (Some "Chat request failed").

(** A setup store with recommendations and nothing in progress. *)
Definition setup_ready : SetupStore.SetupState string Z :=
  SetupStore.mkState (Some "Six servos and a driver board.") (Some 45000)
    [] false None.

End MoreExamples.

(** * Properties *)

(** ** The wizard *)

Section wizard_facts.
Import WizardStore WizardPage Examples.

Lemma truthy_string_None (o : option string) :
  truthy o = false → truthy_string o = None.
Proof. unfold truthy_string. by intros ->. Qed.

Lemma truthy_string_Some (o : option string) (id : string) :
  truthy_string o = Some id → o = Some id ∧ truthy o = true.
Proof.
  unfold truthy_string. destruct (truthy o) eqn:E; [|done].
  by intros ->.
Qed.

Lemma updateStep_begin_inactive (step : Z) (data : WizardProfile)
    (w : WizardState) :
  truthy (setupId w) = false →
  updateStep_begin step data w = (set_error (Some "No active setup") w, None).
Proof.
  intros H. unfold updateStep_begin. by rewrite truthy_string_None.
Qed.

Lemma updateStep_begin_active (step : Z) (data : WizardProfile)
    (w : WizardState) (req : UpdateStepRequest) :
  snd (updateStep_begin step data w) = Some req →
  setupId w = Some (req_setupId req) ∧ truthy (setupId w) = true
  ∧ req_step req = step ∧ req_data req = data
  ∧ fst (updateStep_begin step data w) = set_loading_error true None w.
Proof.
  unfold updateStep_begin.
  destruct (truthy_string (setupId w)) as [id|] eqn:E; simpl; [|done].
  intros [= <-]. by apply truthy_string_Some in E as [-> ->].
Qed.

(** The failure branch of [updateStep] after the [await] writes the error
    and the loading flag, whatever the store holds by then. *)
Lemma updateStep_resume_rejected (w : WizardState) :
  updateStep_resume Rejected w
  = set_loading_error false (Some "Failed to save step") w.
Proof. reflexivity. Qed.

(** C4. A wizard step save that fails, for want of an active setup or
    because the request is rejected, keeps the stored answers: [setupId],
    [currentStep], [profile] and [wizardCompleted] are what they were, and
    the store differs from the old one in [error] and [isLoading] only.
    The same holds for the store while the request is pending. *)
Theorem updateStep_failure_keeps_answers
    (api : UpdateStepRequest → api_result UpdateStepResponse)
    (n : Z) (data : WizardProfile) (w : WizardState) :
  truthy (setupId w) = false
  ∨ (∃ req, snd (updateStep_begin n data w) = Some req ∧ api req = Rejected) →
  let pending := fst (updateStep_begin n data w) in
  let w' := updateStep api n data w in
  (setupId w' = setupId w ∧ currentStep w' = currentStep w
   ∧ profile w' = profile w ∧ wizardCompleted w' = wizardCompleted w)
  ∧ (∃ l e, w' = set_loading_error l e w ∧ is_Some e)
  ∧ (∃ l e, pending = set_loading_error l e w).
Proof.
  intros [Hnone | (req & Hreq & Hrej)] pending w'; subst pending w'.
  - unfold updateStep. rewrite updateStep_begin_inactive; [|done]. simpl.
    split; [done|]. split.
    + exists (isLoading w), (Some "No active setup"). split; [done|eauto].
    + by exists (isLoading w), (Some "No active setup").
  - pose proof (updateStep_begin_active _ _ _ _ Hreq) as (_ & _ & _ & _ & Hfst).
    unfold updateStep.
    destruct (updateStep_begin n data w) as [p [r|]] eqn:E; simpl in *;
      [|done].
    injection Hreq as ->. rewrite Hrej, updateStep_resume_rejected. subst p.
    split; [done|]. split.
    + exists false, (Some "Failed to save step"). split; [done|eauto].
    + by exists true, None.
Qed.

Lemma updateStep_failure_keeps_answers_witness :
  profile (updateStep (λ _, Rejected) 1
             (mkProfile (Some beginner) None None None None None)
             wizard_step1)
  = profile wizard_step1.
Proof.
  apply (updateStep_failure_keeps_answers (λ _, Rejected) 1
           (mkProfile (Some beginner) None None None None None) wizard_step1).
  right. eexists. split; reflexivity.
Defined.

(** C8. [goToStep] with a target outside 1..5 returns the store as it is;
    with a target inside 1..5 it makes the target the current step and
    keeps [setupId], [profile], [wizardCompleted], [isLoading] and
    [error]. *)
Theorem goToStep_range (step : Z) (w : WizardState) :
  (¬ (1 ≤ step ≤ 5) → goToStep step w = w)
  ∧ (1 ≤ step ≤ 5 →
     currentStep (goToStep step w) = step
     ∧ setupId (goToStep step w) = setupId w
     ∧ profile (goToStep step w) = profile w
     ∧ wizardCompleted (goToStep step w) = wizardCompleted w
     ∧ isLoading (goToStep step w) = isLoading w
     ∧ error (goToStep step w) = error w).
Proof.
  unfold goToStep. split; intros H.
  - destruct (1 <=? step) eqn:E1; [|done].
    destruct (step <=? 5) eqn:E2; [|done]. lia.
  - assert ((1 <=? step) && (step <=? 5) = true) as -> by lia. done.
Qed.

Lemma goToStep_range_witness :
  goToStep 9 wizard_step3 = wizard_step3
  ∧ currentStep (goToStep 2 wizard_step3) = 2.
Proof.
  split.
  - apply (goToStep_range 9 wizard_step3). lia.
  - apply (goToStep_range 2 wizard_step3). lia.
Defined.


Lemma canProceed_fields (w : WizardState) :
  canProceed w = true ↔
  (currentStep w = 1 ∧ is_Some (experience (profile w)))
  ∨ (currentStep w = 2 ∧ is_Some (budget (profile w)))
  ∨ (currentStep w = 3 ∧ is_Some (use_case (profile w)))
  ∨ (currentStep w = 4 ∧ is_Some (compute_platform (profile w)))
  ∨ (currentStep w = 5 ∧ is_Some (camera_preference (profile w))).
Proof.
  unfold canProceed. split.
  - destruct (currentStep w) as [|[[[]|[]|]|[[]|[]|]|]|]; try done;
      rewrite bool_decide_eq_true; naive_solver.
  - intros [[-> H]|[[-> H]|[[-> H]|[[-> H]|[-> H]]]]];
      by rewrite bool_decide_eq_true.
Qed.

Lemma submitted_enabled (w : WizardState) (req : UpdateStepRequest) :
  submitted w = Some req →
  next_disabled w = false
  ∧ snd (updateStep_begin (currentStep w) (stepData w) w) = Some req.
Proof.
  unfold submitted, click_next_begin, handleNext_begin.
  by destruct (next_disabled w).
Qed.

(** C6, as stated, fails on step 3: with a use case and no arm type the
    Next button is enabled and the step write is submitted. *)
Lemma next_submits_step3_without_arm_type :
  next_disabled wizard_step3 = false
  ∧ submitted wizard_step3
    = Some (mkUpdateRequest "s-1" 3
              (mkProfile None None (Some learning) None None None))
  ∧ arm_type (profile wizard_step3) = None
  ∧ required_fields_spec (currentStep wizard_step3) (profile wizard_step3)
    = false.
Proof. repeat split. Qed.

(** C6, amended. A click on Next submits a step write only on a step 1..5
    whose gate field is present in the profile: experience on step 1,
    budget on step 2, use_case on step 3, compute_platform on step 4,
    camera_preference on step 5; the write is for the current step and
    carries the fields of that step (on step 3 use_case and arm_type,
    whether or not an arm type was chosen).  Otherwise the Next button is
    disabled and nothing is submitted. *)
Theorem next_submits_only_with_gate_fields (w : WizardState) :
  let p := profile w in
  let gate :=
    (currentStep w = 1 ∧ is_Some (experience p))
    ∨ (currentStep w = 2 ∧ is_Some (budget p))
    ∨ (currentStep w = 3 ∧ is_Some (use_case p))
    ∨ (currentStep w = 4 ∧ is_Some (compute_platform p))
    ∨ (currentStep w = 5 ∧ is_Some (camera_preference p)) in
  (∀ req, submitted w = Some req →
     gate ∧ 1 ≤ currentStep w ≤ 5
     ∧ req_step req = currentStep w ∧ req_data req = stepData w)
  ∧ (¬ gate → next_disabled w = true ∧ submitted w = None).
Proof.
  intros p gate. subst p gate. split.
  - intros req Hreq. apply submitted_enabled in Hreq as [Hen Hreq].
    apply updateStep_begin_active in Hreq as (_ & _ & Hstep & Hdata & _).
    unfold next_disabled in Hen. apply orb_false_iff in Hen as [Hcan _].
    apply negb_false_iff, canProceed_fields in Hcan.
    split; [done|]. split; [|done].
    destruct Hcan as [[E _]|[[E _]|[[E _]|[[E _]|[E _]]]]]; lia.
  - intros Hgate.
    assert (next_disabled w = true) as Hdis.
    { unfold next_disabled. destruct (canProceed w) eqn:E; [|done].
      by apply canProceed_fields in E. }
    split; [done|]. unfold submitted, click_next_begin. by rewrite Hdis.
Qed.

Lemma next_submits_only_with_gate_fields_witness :
  is_Some (use_case (profile wizard_step3))
  ∧ req_step (mkUpdateRequest "s-1" 3
                (mkProfile None None (Some learning) None None None))
    = currentStep wizard_step3.
Proof.
  destruct (next_submits_only_with_gate_fields wizard_step3) as [H _].
  destruct (H (mkUpdateRequest "s-1" 3
                 (mkProfile None None (Some learning) None None None)))
    as (Hgate & _ & Hstep & _).
  - reflexivity.
  - split; [|exact Hstep].
    destruct Hgate as [[E _]|[[E _]|[[_ U]|[[E _]|[E _]]]]];
      first [exact U | discriminate E].
Defined.

End wizard_facts.

(** ** The compare list and the comparison page *)

Section compare_facts.
Import ComponentStore Examples.
Context {Component Category ComponentFilters : Type}.
Context (defaultFilters : ComponentFilters).

Local Abbreviation State :=
  (ComponentState Component Category ComponentFilters).
Local Abbreviation run_from_initial :=
  (run (Component:=Component) (Category:=Category) defaultFilters).

Lemma includes_true (l : list Z) (x : Z) : includes l x = true ↔ x ∈ l.
Proof. unfold includes. apply bool_decide_eq_true. Qed.

Lemma addToCompare_cases (id : Z) (s : State) :
  (((5 ≤ length (compareList s))%nat ∨ id ∈ compareList s)
   ∧ addToCompare id s = s)
  ∨ ((length (compareList s) < 5)%nat ∧ (id ∉ compareList s)
     ∧ addToCompare id s = set_compareList (compareList s ++ [id]) s).
Proof.
  unfold addToCompare.
  destruct (5 <=? Z.of_nat (length (compareList s))) eqn:E.
  { left. split; [left; lia | done]. }
  destruct (includes (compareList s) id) eqn:I.
  { left. split; [right; by apply includes_true | done]. }
  right. split; [lia|]. split; [|done].
  intros Hin. apply includes_true in Hin. congruence.
Qed.

Lemma dispatch_inv (s : State) (a : Action) :
  compare_inv (compareList s) → compare_inv (compareList (dispatch s a)).
Proof.
  intros [Hnd Hlen]. destruct a as [id|id|]; simpl.
  - destruct (addToCompare_cases id s) as [[_ ->]|(Hlt & Hni & ->)];
      [done|]. simpl. split.
    + apply NoDup_app. split; [done|]. split; [|apply NoDup_singleton].
      intros x Hx ->%list_elem_of_singleton. done.
    + rewrite length_app. simpl. lia.
  - split.
    + by apply NoDup_filter.
    + etrans; [apply length_filter|done].
  - split; [apply NoDup_nil_2 | simpl; lia].
Qed.

Lemma fold_dispatch_inv (acts : list Action) (s : State) :
  compare_inv (compareList s) →
  compare_inv (compareList (fold_left dispatch acts s)).
Proof.
  revert s. induction acts as [|a acts IH]; intros s Hs; [done|].
  simpl. by apply IH, dispatch_inv.
Qed.

Lemma run_inv (acts : list Action) :
  compare_inv (compareList (run_from_initial acts)).
Proof.
  apply fold_dispatch_inv. split; [apply NoDup_nil_2 | simpl; lia].
Qed.

Lemma filter_ne_absent (l : list Z) (id : Z) :
  id ∉ l → filter (λ x, x ≠ id) l = l.
Proof.
  induction l as [|y l IH]; intros Hni; [done|].
  apply not_elem_of_cons in Hni as [Hne Hni].
  rewrite filter_cons_True; [|congruence]. f_equal. by apply IH.
Qed.

Lemma filter_ne_app_singleton (l : list Z) (id : Z) :
  id ∉ l → filter (λ x, x ≠ id) (l ++ [id]) = l.
Proof.
  intros Hni. rewrite filter_app, filter_cons_False, filter_nil, app_nil_r.
  - by apply filter_ne_absent.
  - intros H. by apply H.
Qed.

Lemma request_needs_two (p : ComparisonPage.PageState)
    (e : ComparisonPage.Event) (ids : list Z) :
  ComparisonPage.request p e = Some ids →
  ids = ComparisonPage.compareList p ∧ (2 ≤ length ids)%nat.
Proof.
  destruct e; simpl.
  - unfold ComparisonPage.effect, ComparisonPage.fetchComparison.
    destruct (2 <=? _) eqn:E; [|done]. intros [= <-]. split; [done|lia].
  - unfold ComparisonPage.click_retry, ComparisonPage.render,
      ComparisonPage.fetchComparison.
    destruct (_ <? 2) eqn:E; [done|].
    intros H.
    assert (ids = ComparisonPage.compareList p) as ->.
    { repeat (match type of H with
              | context [if ?b then _ else _] => destruct b
              end; try done). by injection H. }
    split; [done|lia].
Qed.

Lemma request_below_two (p : ComparisonPage.PageState)
    (e : ComparisonPage.Event) :
  (length (ComparisonPage.compareList p) < 2)%nat →
  ComparisonPage.request p e = None
  ∧ ComparisonPage.render p
    = ComparisonPage.SelectAtLeastTwo (length (ComparisonPage.compareList p)).
Proof.
  intros Hlt. split.
  - destruct (ComparisonPage.request p e) as [ids|] eqn:E; [|done].
    apply request_needs_two in E as [-> ?]. lia.
  - unfold ComparisonPage.render.
    assert ((Z.of_nat (length (ComparisonPage.compareList p)) <? 2) = true)
      as -> by lia.
    done.
Qed.

(** C9. The compare list of a session never holds an id twice.
    [addToCompare] with an id that is already listed returns the store as
    it is, so adding an id twice is adding it once; and on a list of fewer
    than five ids without [id], [removeFromCompare id] after
    [addToCompare id] gives the original store back. *)
Theorem compare_list_has_no_duplicates :
  (∀ acts, NoDup (compareList (run_from_initial acts)))
  ∧ (∀ id (s : State), id ∈ compareList s → addToCompare id s = s)
  ∧ (∀ id (s : State),
       addToCompare id (addToCompare id s) = addToCompare id s)
  ∧ (∀ id (s : State),
       (length (compareList s) < 5)%nat → id ∉ compareList s →
       compareList (addToCompare id s) = compareList s ++ [id]
       ∧ removeFromCompare id (addToCompare id s) = s).
Proof.
  split; [|split; [|split]].
  - intros acts. apply run_inv.
  - intros id s Hin.
    destruct (addToCompare_cases id s) as [[_ ->]|(_ & Hni & _)]; done.
  - intros id s.
    destruct (addToCompare_cases id s) as [[_ Hid]|(_ & _ & ->)];
      [by rewrite !Hid|].
    destruct (addToCompare_cases id
                (set_compareList (compareList s ++ [id]) s))
      as [[_ ->]|(_ & Hni & _)]; [done|].
    exfalso. apply Hni. simpl. apply elem_of_app. right.
    by apply list_elem_of_singleton.
  - intros id s Hlt Hni.
    destruct (addToCompare_cases id s) as [[[Hge|Hin] _]|(_ & _ & ->)];
      [lia|done|].
    split; [done|]. unfold removeFromCompare. simpl.
    rewrite filter_ne_app_singleton; [|done]. by destruct s.
Qed.

(** C2. A comparison is requested over 2 to 5 distinct ids only: the
    request the comparison page issues carries the compare list of the
    store, which in every session holds between 2 and 5 distinct ids at
    that point; with fewer than 2 ids no request is issued and the page
    asks to select at least two.  [addToCompare] never takes the list
    beyond 5 entries, and the service's [compare] rejects a count outside
    2..5 with InvalidComparisonSize. *)
Theorem comparison_over_two_to_five_ids {V : Type} (to_string : V → string) :
  (∀ acts p e ids,
     ComparisonPage.compareList p = compareList (run_from_initial acts) →
     ComparisonPage.request p e = Some ids →
     ids = ComparisonPage.compareList p
     ∧ (2 ≤ length ids ≤ 5)%nat ∧ NoDup ids)
  ∧ (∀ p e, (length (ComparisonPage.compareList p) < 2)%nat →
     ComparisonPage.request p e = None
     ∧ ComparisonPage.render p
       = ComparisonPage.SelectAtLeastTwo
           (length (ComparisonPage.compareList p)))
  ∧ (∀ id (s : State), (length (compareList s) ≤ 5)%nat →
     (length (compareList (addToCompare id s)) ≤ 5)%nat)
  ∧ (∀ id (s : State), (5 ≤ length (compareList s))%nat →
     addToCompare id s = s)
  ∧ (∀ (catalog : gmap Z (Server.Component V)) ids,
     ¬ (2 ≤ length ids ≤ 5)%nat →
     Server.compare to_string catalog ids = inl Server.InvalidComparisonSize).
Proof.
  split; [|split; [|split; [|split]]].
  - intros acts p e ids Hp Hreq.
    apply request_needs_two in Hreq as [-> Hlen]. split; [done|].
    destruct (run_inv acts) as [Hnd Hle]. rewrite <- Hp in Hnd, Hle.
    split; [lia|done].
  - intros p e. apply request_below_two.
  - intros id s Hle.
    destruct (addToCompare_cases id s) as [[_ ->]|(Hlt & _ & ->)]; [done|].
    simpl. rewrite length_app. simpl. lia.
  - intros id s Hge.
    destruct (addToCompare_cases id s) as [[_ ->]|(Hlt & _ & _)]; [done|lia].
  - intros catalog ids Hn. unfold Server.compare.
    rewrite bool_decide_eq_false_2; [done|]. intros [H _]. lia.
Qed.

End compare_facts.

Lemma compare_list_has_no_duplicates_witness :
  ComponentStore.addToCompare 12 Examples.store_three = Examples.store_three
  ∧ ComponentStore.removeFromCompare 14
      (ComponentStore.addToCompare 14 Examples.store_three)
    = Examples.store_three.
Proof.
  split.
  - apply (compare_list_has_no_duplicates tt).
    apply (bool_decide_unpack _). vm_compute. exact I.
  - apply (compare_list_has_no_duplicates tt).
    + simpl. lia.
    + apply (bool_decide_unpack _). vm_compute. exact I.
Defined.

Lemma comparison_over_two_to_five_ids_witness :
  ([11; 12; 13] = ComparisonPage.compareList Examples.page_three_failed
   ∧ (2 ≤ length [11; 12; 13] ≤ 5)%nat ∧ NoDup [11; 12; 13])
  ∧ ComparisonPage.request (ComparisonPage.mkPage [11] false None false)
      ComparisonPage.EffectRuns = None
  ∧ Server.compare (λ s : string, s) ∅ [11]
    = inl Server.InvalidComparisonSize.
Proof.
  destruct (comparison_over_two_to_five_ids (Component := unit)
              (Category := unit) tt (λ s : string, s))
    as (Hreq & Hfew & _ & _ & Hsize).
  split; [|split].
  - apply (Hreq [ComponentStore.AddToCompare 11;
                 ComponentStore.AddToCompare 12;
                 ComponentStore.AddToCompare 13]
             Examples.page_three_failed ComparisonPage.RetryClicked);
      reflexivity.
  - apply Hfew. simpl. lia.
  - apply Hsize. simpl. lia.
Defined.

(** ** The chat transcript *)

Section chat_facts.
Import SetupStore Examples.
Context {Recommendations SetupPricing : Type}.

Local Abbreviation State := (SetupState Recommendations SetupPricing).

Lemma copy_messages (l : list ChatMessage) :
  map (λ m, mkMessage (role m) (content m)) l = l.
Proof.
  induction l as [|[r c] l IH]; [done|]. simpl. by rewrite IH.
Qed.

Lemma sendChatMessage_begin_request (setupId message : string) (s : State) :
  request (snd (sendChatMessage_begin setupId message s))
  = mkChatRequest setupId message (chatHistory s).
Proof. simpl. by rewrite copy_messages. Qed.

(** C5. [sendChatMessage] appends the user message to the transcript of
    the store and forwards to the service the setup id, the new message
    and the transcript as it was before the call, so the caller supplies
    the whole transcript on each call.  When the service answers, the
    answer is appended unchanged as the assistant message and is the value
    returned; nothing else in the store changes but the loading flag. *)
Theorem sendChatMessage_forwards_transcript
    (api : ChatRequest → api_result string) (setupId message : string)
    (s : State) :
  let pending := sendChatMessage_begin setupId message s in
  let req := request (snd pending) in
  let out := sendChatMessage api setupId message s in
  chatHistory (fst pending) = chatHistory s ++ [mkMessage user message]
  ∧ req = mkChatRequest setupId message (chatHistory s)
  ∧ chat_history req ++ [mkMessage user (chat_message req)]
    = chatHistory (fst pending)
  ∧ (∀ response, api req = Resolved response →
     snd out = response
     ∧ chatHistory (fst out)
       = chatHistory s
         ++ [mkMessage user message; mkMessage assistant response]
     ∧ recommendations (fst out) = recommendations s
     ∧ pricing (fst out) = pricing s
     ∧ error (fst out) = error s
     ∧ isLoading (fst out) = false).
Proof.
  intros pending req out. subst pending req out.
  rewrite sendChatMessage_begin_request.
  split; [done|]. split; [done|]. split; [done|].
  intros response Hresp. unfold sendChatMessage.
  destruct (sendChatMessage_begin setupId message s) as [s1 k] eqn:E.
  pose proof (sendChatMessage_begin_request setupId message s) as Hreq.
  rewrite E in Hreq. simpl in Hreq. rewrite Hreq, Hresp.
  unfold sendChatMessage_begin in E. injection E as <- <-. simpl.
  by rewrite <- app_assoc.
Qed.

(** C10. Every [sendChatMessage] call run to completion makes the
    transcript two entries longer, the user message and then one assistant
    entry, whose content is what the call returns.  When the request
    fails, that entry is the fixed apology, the error field is set to
    "Chat request failed" and the apology is returned: the action itself
    does not fail. *)
Theorem sendChatMessage_grows_by_two
    (api : ChatRequest → api_result string) (setupId message : string)
    (s : State) :
  let req := mkChatRequest setupId message (chatHistory s) in
  let out := sendChatMessage api setupId message s in
  chatHistory (fst out)
  = chatHistory s ++ [mkMessage user message; mkMessage assistant (snd out)]
  ∧ length (chatHistory (fst out)) = (length (chatHistory s) + 2)%nat
  ∧ (api req = Rejected →
     snd out = "Sorry, I encountered an error. Please try again."
     ∧ error (fst out) = Some "Chat request failed"
     ∧ isLoading (fst out) = false).
Proof.
  intros req out. subst req out.
  assert (∀ o, api (mkChatRequest setupId message (chatHistory s)) = o →
          sendChatMessage api setupId message s
          = sendChatMessage_resume
              (mkPending (chatHistory s ++ [mkMessage user message])
                         (mkChatRequest setupId message (chatHistory s)))
              o
              (mkState (recommendations s) (pricing s)
                       (chatHistory s ++ [mkMessage user message]) true
                       (error s))) as Hrun.
  { intros o <-. unfold sendChatMessage, sendChatMessage_begin. simpl.
    by rewrite copy_messages. }
  destruct (api (mkChatRequest setupId message (chatHistory s)))
    as [response|] eqn:E; rewrite (Hrun _ eq_refl); simpl;
    rewrite <- app_assoc; simpl.
  - split; [done|]. split; [|done]. rewrite length_app. simpl. lia.
  - split; [done|]. split; [|done]. rewrite length_app. simpl. lia.
Qed.

End chat_facts.

Lemma sendChatMessage_forwards_transcript_witness :
  snd (SetupStore.sendChatMessage (λ _, Resolved "Six of them.") "s-1"
         "How many?" Examples.chat_one)
  = "Six of them.".
Proof.
  apply (sendChatMessage_forwards_transcript (λ _, Resolved "Six of them.")
           "s-1" "How many?" Examples.chat_one).
  reflexivity.
Defined.

Lemma sendChatMessage_grows_by_two_witness :
  snd (SetupStore.sendChatMessage (λ _, Rejected) "s-1" "How many?"
         Examples.chat_one)
  = "Sorry, I encountered an error. Please try again."
  ∧ SetupStore.error (fst (SetupStore.sendChatMessage (λ _, Rejected) "s-1"
                             "How many?" Examples.chat_one))
    = Some "Chat request failed"
  ∧ SetupStore.isLoading (fst (SetupStore.sendChatMessage (λ _, Rejected)
                                 "s-1" "How many?" Examples.chat_one))
    = false.
Proof.
  apply (sendChatMessage_grows_by_two (λ _, Rejected) "s-1" "How many?"
           Examples.chat_one).
  reflexivity.
Defined.

(** ** The setup page *)

Section setup_page_facts.
Import SetupPage Examples.

Lemma regenerate_call (p : PageState) (id : string) :
  GenerateRecommendations id ∈ regenerate p →
  setupId p = Some id ∧ truthy (setupId p) = true.
Proof.
  unfold regenerate.
  destruct (truthy_string (setupId p)) as [id'|] eqn:E.
  - intros [= ->]%list_elem_of_singleton. by apply truthy_string_Some.
  - by intros ?%elem_of_nil.
Qed.

Lemma render_incomplete (p : PageState) :
  wizardCompleted p = false → render p = WizardNotComplete.
Proof. unfold render. by intros ->. Qed.

Lemma calls_incomplete (p : PageState) (e : Event) :
  wizardCompleted p = false → calls p e = [].
Proof.
  intros H. destruct e; simpl.
  - unfold effect. rewrite H. by destruct (truthy_string (setupId p)).
  - unfold click_retry. by rewrite render_incomplete.
  - unfold click_refresh. by rewrite render_incomplete.
Qed.

(** C7. Whatever the setup page does, on its effect or on a click on Retry
    or on Refresh Recommendations, it calls [generateRecommendations] only
    when [wizardCompleted] is true and the route carries a setup id, and it
    calls it with that id.  While the wizard is not complete the page shows
    the "Wizard Not Complete" gate and calls nothing. *)
Theorem generateRecommendations_needs_completed_wizard (p : PageState) :
  (∀ e id, GenerateRecommendations id ∈ calls p e →
     wizardCompleted p = true ∧ setupId p = Some id
     ∧ truthy (setupId p) = true)
  ∧ (wizardCompleted p = false →
     render p = WizardNotComplete ∧ ∀ e, calls p e = []).
Proof.
  split.
  - intros e id Hin.
    destruct (wizardCompleted p) eqn:Hc.
    + split; [done|]. destruct e; simpl in Hin.
      * unfold effect in Hin.
        destruct (truthy_string (setupId p)) as [id'|] eqn:E;
          [|by apply elem_of_nil in Hin].
        destruct (_ && _); [|by apply elem_of_nil in Hin].
        apply elem_of_cons in Hin as [[= ->]|Hin];
          [by apply truthy_string_Some|].
        by apply list_elem_of_singleton in Hin.
      * unfold click_retry in Hin.
        destruct (render p) as [|[] [] ?];
          try (by apply elem_of_nil in Hin).
        by apply regenerate_call.
      * unfold click_refresh in Hin.
        destruct (render p) as [|[] ? []];
          try (by apply elem_of_nil in Hin).
        by apply regenerate_call.
    + rewrite calls_incomplete in Hin; [|done]. by apply elem_of_nil in Hin.
  - intros Hc. split; [by apply render_incomplete|].
    intros e. by apply calls_incomplete.
Qed.

End setup_page_facts.

Lemma generateRecommendations_needs_completed_wizard_witness :
  (SetupPage.wizardCompleted Examples.setup_page_failed = true
   ∧ SetupPage.setupId Examples.setup_page_failed = Some "s-1"
   ∧ truthy (SetupPage.setupId Examples.setup_page_failed) = true)
  ∧ SetupPage.render Examples.setup_page_incomplete
    = SetupPage.WizardNotComplete.
Proof.
  split.
  - apply (generateRecommendations_needs_completed_wizard
             Examples.setup_page_failed)
      with (e := SetupPage.RetryClicked).
    simpl. apply list_elem_of_here.
  - apply (generateRecommendations_needs_completed_wizard
             Examples.setup_page_incomplete).
    reflexivity.
Defined.

(** * Further properties of the stores and pages *)

(** ** Wizard navigation and answers *)

Section wizard_navigation_facts.
Import WizardStore WizardPage WizardNavigation Examples MoreExamples.

Lemma goToStep_cases (n : Z) (s : WizardState) :
  (¬ (1 ≤ n ≤ 5) ∧ goToStep n s = s)
  ∨ (1 ≤ n ≤ 5
     ∧ goToStep n s
       = mkState (setupId s) n (profile s) (isLoading s) (error s)
                 (wizardCompleted s)).
Proof.
  unfold goToStep.
  destruct (1 <=? n) eqn:E1, (n <=? 5) eqn:E2; simpl;
    first [right; split; [lia|done] | left; split; [lia|done]].
Qed.

Lemma state_eta (s : WizardState) :
  mkState (setupId s) (currentStep s) (profile s) (isLoading s) (error s)
          (wizardCompleted s) = s.
Proof. by destruct s. Qed.

Lemma navigation_never_advances_frame (e : NavEvent) (s : WizardState) :
  setupId (navigate e s) = setupId s
  ∧ wizardCompleted (navigate e s) = wizardCompleted s.
Proof.
  destruct e as [|n]; simpl.
  - unfold click_back, handleBack.
    destruct (currentStep s =? 1); [done|].
    destruct (1 <? currentStep s); [|done].
    by destruct (goToStep_cases (currentStep s - 1) s) as [[_ ->]|[_ ->]].
  - unfold click_indicator.
    destruct (currentStep s <? n); [done|].
    destruct (n <? currentStep s); [|done].
    by destruct (goToStep_cases n s) as [[_ ->]|[_ ->]].
Qed.

(** X1. Back and the step indicator never move the wizard forward and
    never touch anything but the step: the store after the click is the
    old store with a step [n] that is either the old step or a step of
    1..5 below it. *)
Theorem navigation_never_advances (e : NavEvent) (s : WizardState) :
  ∃ n, navigate e s
       = mkState (setupId s) n (profile s) (isLoading s) (error s)
                 (wizardCompleted s)
     ∧ (n = currentStep s ∨ (1 ≤ n ≤ 5 ∧ n < currentStep s)).
Proof.
  assert (∃ n, s = mkState (setupId s) n (profile s) (isLoading s) (error s)
                     (wizardCompleted s)
             ∧ (n = currentStep s ∨ (1 ≤ n ≤ 5 ∧ n < currentStep s)))
    as Hsame.
  { exists (currentStep s). split; [by rewrite state_eta | by left]. }
  destruct e as [|n]; simpl.
  - unfold click_back, handleBack.
    destruct (currentStep s =? 1); [done|].
    destruct (1 <? currentStep s) eqn:E; [|done].
    destruct (goToStep_cases (currentStep s - 1) s) as [[_ ->]|[Hr ->]];
      [done|].
    exists (currentStep s - 1). split; [done|]. right. lia.
  - unfold click_indicator.
    destruct (currentStep s <? n); [done|].
    destruct (n <? currentStep s) eqn:E; [|done].
    destruct (goToStep_cases n s) as [[_ ->]|[Hr ->]]; [done|].
    exists n. split; [done|]. right. lia.
Qed.

Lemma give_answer_frame (a : Answer) (s : WizardState) :
  setupId (give_answer a s) = setupId s
  ∧ currentStep (give_answer a s) = currentStep s
  ∧ isLoading (give_answer a s) = isLoading s
  ∧ error (give_answer a s) = error s
  ∧ wizardCompleted (give_answer a s) = wizardCompleted s.
Proof. unfold give_answer. by destruct (_ =? _). Qed.

(** X2. On each step, giving the answer the gate looks at enables Next:
    with a setup and no save in progress, the click submits a write for
    that step to that setup, and the write carries the answer.  The arm
    type is not such an answer: given alone on step 3 it leaves Next
    disabled. *)
Theorem gate_answer_enables_next (a : Answer) (s : WizardState)
    (id : string) :
  currentStep s = answer_step a →
  isLoading s = false →
  truthy_string (setupId s) = Some id →
  (gate_answer a = true →
   ∃ data, submitted (give_answer a s)
           = Some (mkUpdateRequest id (answer_step a) data)
         ∧ merge_profile data (answer_object a) = data
         ∧ merge_profile (profile (give_answer a s)) data
           = profile (give_answer a s))
  ∧ (gate_answer a = false →
     use_case (profile s) = None →
     next_disabled (give_answer a s) = true
     ∧ submitted (give_answer a s) = None).
Proof.
  intros Hstep Hload Hid.
  destruct s as [sid cs [pe pb pu pc pm pa] l er wc]; simpl in *.
  subst cs l. apply truthy_string_Some in Hid as [-> Hid].
  destruct id as [|c id]; [discriminate Hid|]. split.
  - intros Hgate.
    exists (stepData (give_answer a
              (mkState (Some (String c id)) (answer_step a)
                       (mkProfile pe pb pu pc pm pa) false er wc))).
    unfold submitted, click_next_begin, next_disabled, canProceed,
      handleNext_begin, updateStep_begin, stepData, give_answer.
    destruct a; try discriminate Hgate; unfold merge_profile; simpl;
      by destruct pa.
  - intros Harm Huse. subst pu.
    unfold submitted, click_next_begin, next_disabled, canProceed,
      give_answer.
    by destruct a; try discriminate Harm.
Qed.


Lemma gate_answer_enables_next_witness :
  ∃ data, submitted (give_answer (AnswerBudget 300) wizard_step2)
          = Some (mkUpdateRequest "s-1" 2 data)
        ∧ merge_profile data (answer_object (AnswerBudget 300)) = data
        ∧ merge_profile (profile (give_answer (AnswerBudget 300) wizard_step2))
            data
          = profile (give_answer (AnswerBudget 300) wizard_step2).
Proof.
  apply (gate_answer_enables_next (AnswerBudget 300) wizard_step2 "s-1");
    reflexivity.
Defined.


(** X4. When it opens, the budget step shows 500 for a profile without a
    budget, but the gate reads the profile: on step 2 without a budget
    Next is disabled and nothing is submitted, whatever amount is on
    screen.  A stored budget other than 0 is shown as it is, and the
    amount shown on opening is never 0. *)
Theorem budget_shown_is_not_the_budget (s : WizardState) :
  budget_shown (profile s) ≠ 0
  ∧ (∀ b, budget (profile s) = Some b → b ≠ 0 →
     budget_shown (profile s) = b)
  ∧ (currentStep s = 2 → budget (profile s) = None →
     budget_shown (profile s) = 500
     ∧ next_disabled s = true ∧ submitted s = None).
Proof.
  unfold budget_shown. split; [|split].
  - by destruct (budget (profile s)) as [[]|].
  - intros b -> Hb. by destruct b.
  - intros Hstep Hb. rewrite Hb. split; [done|].
    assert (next_disabled s = true) as Hdis.
    { unfold next_disabled, canProceed. by rewrite Hstep, Hb. }
    split; [done|]. unfold submitted, click_next_begin. by rewrite Hdis.
Qed.

Lemma budget_shown_is_not_the_budget_witness :
  budget_shown (profile wizard_step2) = 500
  ∧ next_disabled wizard_step2 = true ∧ submitted wizard_step2 = None.
Proof.
  apply (budget_shown_is_not_the_budget wizard_step2); reflexivity.
Defined.

(** X5. A wizard start that succeeds leaves nothing of the earlier
    session: whatever the store held, it now holds the new setup id,
    step 1, an empty profile and no completion, so Next is disabled; and a
    save after the first answer goes to the new setup.  A start that fails
    keeps the earlier session and only records the error. *)
Theorem startWizard_discards_or_keeps (s : WizardState) (id : string) :
  let fresh := startWizard_resume (Resolved id) (startWizard_begin s) in
  let failed := startWizard_resume Rejected (startWizard_begin s) in
  fresh = mkState (Some id) 1 empty_profile false None false
  ∧ next_disabled fresh = true ∧ submitted fresh = None
  ∧ (∀ v, truthy (Some id) = true →
     submitted (give_answer (AnswerExperience v) fresh)
     = Some (mkUpdateRequest id 1
               (mkProfile (Some v) None None None None None)))
  ∧ failed = set_loading_error false (Some "Failed to start wizard") s
  ∧ profile failed = profile s ∧ currentStep failed = currentStep s
  ∧ setupId failed = setupId s ∧ wizardCompleted failed = wizardCompleted s.
Proof.
  intros fresh failed. subst fresh failed. simpl.
  repeat split. intros v Hid.
  unfold submitted, click_next_begin, handleNext_begin, updateStep_begin,
    truthy_string. simpl. by rewrite Hid.
Qed.

Lemma startWizard_discards_or_keeps_witness :
  submitted (give_answer (AnswerExperience advanced)
               (startWizard_resume (Resolved "s-2")
                  (startWizard_begin wizard_done)))
  = Some (mkUpdateRequest "s-2" 1
            (mkProfile (Some advanced) None None None None None)).
Proof.
  apply (startWizard_discards_or_keeps wizard_done "s-2"). reflexivity.
Defined.

Lemma effects_frame (s s' : WizardState) :
  setupId s' = setupId s → wizardCompleted s' = wizardCompleted s →
  effects s' = effects s.
Proof. unfold effects. by intros -> ->. Qed.

(** X6. The wizard page starts a wizard exactly when the store has no
    setup id, and leaves for the setup page exactly when the wizard is
    completed and has one, to the path of that id; it never does both.
    Back, the step indicator and the answers do not change what the
    effects do, so a completed wizard keeps redirecting. *)
Theorem wizard_page_effects (s : WizardState) :
  (StartWizard ∈ effects s ↔ truthy (setupId s) = false)
  ∧ (∀ path, Navigate path ∈ effects s ↔
       wizardCompleted s = true
       ∧ ∃ id, truthy_string (setupId s) = Some id
               ∧ path = ("/setup/" ++ id)%string)
  ∧ (length (effects s) ≤ 1)%nat
  ∧ (∀ e, effects (navigate e s) = effects s)
  ∧ (∀ a, effects (give_answer a s) = effects s).
Proof.
  split; [|split; [|split; [|split]]].
  - unfold effects, truthy_string.
    destruct (truthy (setupId s)), (wizardCompleted s),
      (setupId s) as [id|]; simpl; split; try done;
      intros H; try (by apply list_elem_of_here);
      repeat (apply elem_of_cons in H as [H|H]; [done|]);
      by apply elem_of_nil in H.
  - intros path. unfold effects, truthy_string.
    destruct (truthy (setupId s)) eqn:Ht, (wizardCompleted s),
      (setupId s) as [id|]; simpl; split;
      try (intros H; repeat (apply elem_of_cons in H as [H|H]; [done|]);
           by apply elem_of_nil in H);
      try (by intros [? (id' & ? & ?)]).
    + intros [= ->]%list_elem_of_singleton. split; [done|]. by exists id.
    + intros [_ (id' & [= <-] & ->)]. apply list_elem_of_here.
  - unfold effects, truthy_string.
    destruct (truthy (setupId s)), (wizardCompleted s),
      (setupId s) as [id|]; simpl; lia.
  - intros e. destruct (navigation_never_advances_frame e s) as [H1 H2].
    by apply effects_frame.
  - intros a. destruct (give_answer_frame a s) as (H1 & _ & _ & _ & H2).
    by apply effects_frame.
Qed.

(** X19. A save that succeeds replaces the step, the profile and the
    completion flag of the store by those of the response, and keeps the
    setup id.  The wizard page then leaves for the setup page of the
    store's setup id exactly when the response says the wizard is
    completed. *)
Theorem successful_save_follows_response
    (api : UpdateStepRequest → api_result UpdateStepResponse)
    (s : WizardState) (req : UpdateStepRequest)
    (resp : UpdateStepResponse) :
  submitted s = Some req → api req = Resolved resp →
  click_next api s
  = mkState (Some (req_setupId req)) (current_step resp) (resp_profile resp)
            false None (wizard_completed resp)
  ∧ effects (click_next api s)
    = if wizard_completed resp
      then [Navigate ("/setup/" ++ req_setupId req)%string]
      else [].
Proof.
  intros Hsub Hresp.
  apply submitted_enabled in Hsub as [Hen Hreq].
  pose proof (updateStep_begin_active _ _ _ _ Hreq) as (Hid & Ht & _ & _ & Hb).
  assert (click_next api s
          = mkState (Some (req_setupId req)) (current_step resp)
                    (resp_profile resp) false None (wizard_completed resp))
    as ->.
  { unfold click_next, handleNext, updateStep. rewrite Hen.
    destruct (updateStep_begin (currentStep s) (stepData s) s)
      as [s1 [r|]] eqn:E; simpl in *; [|done].
    injection Hreq as ->. rewrite Hresp. subst s1. simpl.
    by rewrite Hid. }
  split; [done|]. unfold effects, truthy_string. simpl.
  rewrite Hid in Ht. simpl in Ht. rewrite Ht.
  by destruct (wizard_completed resp).
Qed.

Lemma successful_save_follows_response_witness :
  effects (click_next (λ _, Resolved response_done) wizard_step5)
  = [Navigate "/setup/s-1"].
Proof.
  apply (successful_save_follows_response (λ _, Resolved response_done)
           wizard_step5
           (mkUpdateRequest "s-1" 5
              (mkProfile None None None None (Some basic) None))
           response_done); reflexivity.
Defined.

End wizard_navigation_facts.

Lemma wizard_page_effects_witness :
  WizardNavigation.Navigate "/setup/s-1"
  ∈ WizardNavigation.effects MoreExamples.wizard_done.
Proof.
  apply (wizard_page_effects MoreExamples.wizard_done).
  split; [reflexivity|]. exists "s-1". split; reflexivity.
Defined.

(** ** The catalog: filters, pages, loading and selection *)

Section catalog_facts.
Import ComponentStore Catalog.
Context {Component Category : Type}.
Context (component_id : Component → Z).

Local Abbreviation State :=
  (ComponentState Component Category ComponentFilters).

Lemma fetchComponents_begin_frame (s : State) :
  let s' := fst (fetchComponents_begin s) in
  snd (fetchComponents_begin s) = filters s'
  ∧ filters s' = filters s ∧ compareList s' = compareList s
  ∧ selectedComponents s' = selectedComponents s
  ∧ components s' = components s ∧ categories s' = categories s
  ∧ totalPages s' = totalPages s ∧ total s' = total s
  ∧ isLoading s' = true ∧ error s' = None.
Proof. done. Qed.

(** X7. Every change of the filter bar goes back to page 1 and keeps the
    page size and the filters it is not about; the request it starts
    carries the filters as just changed.  An empty search box removes the
    search filter; unchecking "SO-101 Defaults Only" removes its filter,
    while unchecking "In Stock Only" sets its filter to false.  The
    compare list, the selection and the loaded components are as
    before. *)
Theorem filter_change_returns_to_first_page (e : FilterEvent) (s : State) :
  let s' := fst (change_filter e s) in
  let f := filters s in
  snd (change_filter e s) = filters s'
  ∧ filters s'
    = match e with
      | SearchSubmitted q =>
          mkFilters (category_id f) (category_slug f)
            (if decide (q = EmptyString) then None else Some q)
            (min_price f) (max_price f) (is_default_for_so101 f)
            (arm_type f) (in_stock_only f) 1 (page_size f)
      | CategoryClicked c =>
          mkFilters (category_id f) c (search f) (min_price f) (max_price f)
            (is_default_for_so101 f) (arm_type f) (in_stock_only f) 1
            (page_size f)
      | DefaultsOnlyToggled b =>
          mkFilters (category_id f) (category_slug f) (search f)
            (min_price f) (max_price f) (if b then Some true else None)
            (arm_type f) (in_stock_only f) 1 (page_size f)
      | InStockOnlyToggled b =>
          mkFilters (category_id f) (category_slug f) (search f)
            (min_price f) (max_price f) (is_default_for_so101 f)
            (arm_type f) (Some b) 1 (page_size f)
      end
  ∧ compareList s' = compareList s
  ∧ selectedComponents s' = selectedComponents s
  ∧ components s' = components s
  ∧ isLoading s' = true ∧ error s' = None.
Proof.
  intros s' f. subst s' f.
  destruct e as [q|c|b|b]; simpl; repeat split; try done.
  by destruct q.
Qed.

Lemma handlePageChange_filters (p : Z) (s : State) :
  p ≠ 0 →
  handlePageChange p s
  = (mkState (components s) (categories s) (selectedComponents s)
             (compareList s)
             (mkFilters (category_id (filters s)) (category_slug (filters s))
                (search (filters s)) (min_price (filters s))
                (max_price (filters s)) (is_default_for_so101 (filters s))
                (arm_type (filters s)) (in_stock_only (filters s)) p
                (page_size (filters s)))
             (totalPages s) (total s) true None,
     mkFilters (category_id (filters s)) (category_slug (filters s))
       (search (filters s)) (min_price (filters s))
       (max_price (filters s)) (is_default_for_so101 (filters s))
       (arm_type (filters s)) (in_stock_only (filters s)) p
       (page_size (filters s))).
Proof.
  intros Hp. unfold handlePageChange, setFilters, fetchComponents_begin,
    merge_filters, page_or_1. simpl. by destruct p.
Qed.

(** X8. While the page of the filters is within 1..totalPages, a click on
    a pagination button keeps it there: it moves by exactly one page and
    requests that page with all other filters unchanged, or, on a
    disabled button, does nothing and requests nothing. *)
Theorem pagination_stays_in_range (b : PageButton) (s : State) :
  1 ≤ page (filters s) ≤ totalPages s →
  let s' := fst (click_page_button b s) in
  let f := filters s in
  1 ≤ page (filters s') ≤ totalPages s'
  ∧ totalPages s' = totalPages s
  ∧ compareList s' = compareList s
  ∧ filters s'
    = mkFilters (category_id f) (category_slug f) (search f) (min_price f)
        (max_price f) (is_default_for_so101 f) (arm_type f)
        (in_stock_only f) (page (filters s')) (page_size f)
  ∧ match snd (click_page_button b s) with
    | Some req =>
        req = filters s'
        ∧ page (filters s')
          = match b with
            | PreviousPage => page f - 1
            | NextPage => page f + 1
            end
    | None => s' = s
    end.
Proof.
  intros Hr s' f. subst s' f. unfold click_page_button.
  destruct (totalPages s <=? 1) eqn:Et.
  { simpl. repeat split; try done; try lia. by destruct (filters s). }
  destruct b.
  - destruct (page (filters s) =? 1) eqn:E1.
    { simpl. repeat split; try done; try lia. by destruct (filters s). }
    rewrite handlePageChange_filters by lia. simpl.
    repeat split; try done; lia.
  - destruct (page (filters s) =? totalPages s) eqn:E1.
    { simpl. repeat split; try done; try lia. by destruct (filters s). }
    rewrite handlePageChange_filters by lia. simpl.
    repeat split; try done; lia.
Qed.

(** X9. Loading the catalog never touches the compare list, the selection
    or the filters.  When the request fails the components, the page count
    and the total loaded before are kept and the error is recorded; when
    it succeeds they are replaced and no error is left.  A failing load of
    the categories changes nothing at all in the store. *)
Theorem fetchComponents_keeps_lists
    (api : ComponentFilters → api_result (ListResponse Component))
    (s : State) :
  let s' := fetchComponents api s in
  (compareList s' = compareList s
   ∧ selectedComponents s' = selectedComponents s
   ∧ filters s' = filters s ∧ categories s' = categories s
   ∧ isLoading s' = false)
  ∧ match api (filters s) with
    | Resolved data =>
        components s' = items data ∧ totalPages s' = total_pages data
        ∧ total s' = resp_total data ∧ error s' = None
    | Rejected =>
        components s' = components s ∧ totalPages s' = totalPages s
        ∧ total s' = total s ∧ error s' = Some "Failed to load components"
    end
  ∧ fetchCategories_resume Rejected s = s.
Proof.
  intros s'. subst s'. unfold fetchComponents. simpl.
  by destruct (api (filters s)).
Qed.

Lemma is_selected_true (l : list Component) (id : Z) :
  is_selected component_id l id = true ↔ id ∈ component_id <$> l.
Proof.
  unfold is_selected. rewrite existsb_exists, list_elem_of_fmap.
  split.
  - intros (c & Hc%list_elem_of_In & Heq%Z.eqb_eq). by exists c.
  - intros (c & -> & Hc). exists c. split; [by apply list_elem_of_In|].
    apply Z.eqb_refl.
Qed.

Lemma selectComponent_cases (c : Component) (s : State) :
  (component_id c ∈ component_id <$> selectedComponents s
   ∧ selectComponent component_id c s = s)
  ∨ ((component_id c ∉ component_id <$> selectedComponents s)
     ∧ selectComponent component_id c s
       = set_selected (selectedComponents s ++ [c]) s).
Proof.
  unfold selectComponent.
  destruct (is_selected component_id (selectedComponents s)
              (component_id c)) eqn:E.
  - left. split; [by apply is_selected_true|done].
  - right. split; [|done]. intros H%is_selected_true. congruence.
Qed.

Lemma filter_id_ne_absent (l : list Component) (id : Z) :
  id ∉ component_id <$> l → filter (λ c, component_id c ≠ id) l = l.
Proof.
  induction l as [|c l IH]; intros Hni; [done|].
  rewrite fmap_cons in Hni. apply not_elem_of_cons in Hni as [Hne Hni].
  rewrite filter_cons_True; [|congruence]. f_equal. by apply IH.
Qed.

Lemma NoDup_fmap_filter (l : list Component) (id : Z) :
  NoDup (component_id <$> l) →
  NoDup (component_id <$> filter (λ c, component_id c ≠ id) l).
Proof.
  induction l as [|c l IH]; [done|].
  rewrite fmap_cons. intros [Hni Hnd]%NoDup_cons.
  destruct (decide (component_id c ≠ id)) as [Hne|He].
  - rewrite filter_cons_True by done. rewrite fmap_cons.
    apply NoDup_cons. split; [|by apply IH].
    intros (c' & Heq & [_ Hc']%list_elem_of_filter)%list_elem_of_fmap.
    apply Hni. apply list_elem_of_fmap. by exists c'.
  - rewrite filter_cons_False by done. by apply IH.
Qed.

(** X10. The selection never holds two components with the same id, as
    long as it started so.  Selecting a component whose id is selected
    keeps the store, and so the record already stored, whatever the new
    record holds; selecting one with a fresh id appends it, however long
    the selection is.  Deselecting removes the id, and after selecting a
    fresh component it gives the original store back. *)
Theorem selection_has_no_duplicate_ids (c : Component) (id : Z) (s : State) :
  NoDup (component_id <$> selectedComponents s) →
  NoDup (component_id
           <$> selectedComponents (selectComponent component_id c s))
  ∧ NoDup (component_id
             <$> selectedComponents (deselectComponent component_id id s))
  ∧ (id ∉ component_id
        <$> selectedComponents (deselectComponent component_id id s))
  ∧ (component_id c ∈ component_id <$> selectedComponents s →
     selectComponent component_id c s = s)
  ∧ (component_id c ∉ component_id <$> selectedComponents s →
     selectedComponents (selectComponent component_id c s)
     = selectedComponents s ++ [c]
     ∧ deselectComponent component_id (component_id c)
         (selectComponent component_id c s) = s).
Proof.
  intros Hnd. split; [|split; [|split; [|split]]].
  - destruct (selectComponent_cases c s) as [[_ ->]|[Hni ->]]; [done|].
    simpl. rewrite fmap_app. apply NoDup_app. split; [done|].
    split; [|apply NoDup_singleton].
    intros x Hx ->%list_elem_of_singleton. done.
  - simpl. by apply NoDup_fmap_filter.
  - simpl.
    intros (c' & -> & [Hne _]%list_elem_of_filter)%list_elem_of_fmap. done.
  - intros Hin.
    destruct (selectComponent_cases c s) as [[_ ->]|[Hni _]]; done.
  - intros Hni.
    destruct (selectComponent_cases c s) as [[Hin _]|[_ ->]]; [done|].
    split; [done|]. unfold deselectComponent. simpl.
    rewrite filter_app, filter_cons_False, filter_nil, app_nil_r;
      [|by intros H; apply H].
    rewrite filter_id_ne_absent by done. by destruct s.
Qed.

Lemma length_filter_ne_NoDup (l : list Z) (id : Z) :
  NoDup l → id ∈ l →
  S (length (filter (λ x, x ≠ id) l)) = length l.
Proof.
  induction l as [|y l IH]; intros Hnd Hin; [by apply elem_of_nil in Hin|].
  apply NoDup_cons in Hnd as [Hy Hnd].
  apply elem_of_cons in Hin as [->|Hin].
  - rewrite filter_cons_False by (intros H; by apply H).
    by rewrite filter_ne_absent.
  - rewrite filter_cons_True by (intros ->; done). simpl.
    by rewrite IH.
Qed.

Lemma not_elem_of_filter_ne (l : list Z) (id : Z) :
  id ∉ filter (λ x, x ≠ id) l.
Proof. by intros [Hne _]%list_elem_of_filter. Qed.

(** X11. The compare button of a card toggles: on a listed id it removes
    the id; on an unlisted id it adds the id, unless five ids are listed
    already, in which case the click does nothing.  It keeps the list
    free of duplicates and within five ids.  Two clicks on an unlisted id
    give the store back when there was room; two clicks on a listed id
    move the id to the end of the list. *)
Theorem compare_button_toggles (id : Z) (s : State) :
  compare_inv (compareList s) →
  let s' := click_compare id s in
  compare_inv (compareList s')
  ∧ (id ∈ compareList s →
     compareList s' = filter (λ x, x ≠ id) (compareList s)
     ∧ (id ∉ compareList s')
     ∧ compareList (click_compare id s')
       = filter (λ x, x ≠ id) (compareList s) ++ [id])
  ∧ (id ∉ compareList s → (length (compareList s) < 5)%nat →
     compareList s' = compareList s ++ [id]
     ∧ click_compare id s' = s)
  ∧ (id ∉ compareList s → length (compareList s) = 5%nat → s' = s).
Proof.
  intros Hinv s'. subst s'. unfold click_compare.
  destruct (includes (compareList s) id) eqn:E.
  - apply includes_true in E.
    split; [apply (dispatch_inv s (RemoveFromCompare id) Hinv)|].
    split; [|split; intros; done].
    intros _. simpl. split; [done|]. split; [apply not_elem_of_filter_ne|].
    assert (includes (filter (λ x, x ≠ id) (compareList s)) id = false)
      as ->.
    { apply not_true_is_false. intros H%includes_true.
      by apply not_elem_of_filter_ne in H. }
    destruct (addToCompare_cases id (removeFromCompare id s))
      as [[[Hge|Hin] _]|(_ & _ & ->)]; [| |done].
    + simpl in Hge. destruct Hinv as [Hnd Hle].
      pose proof (length_filter_ne_NoDup _ id Hnd E). lia.
    + simpl in Hin. by apply not_elem_of_filter_ne in Hin.
  - assert (id ∉ compareList s) as Hni.
    { intros H%includes_true. congruence. }
    split; [apply (dispatch_inv s (AddToCompare id) Hinv)|].
    split; [done|]. split.
    + intros _ Hlt.
      destruct (addToCompare_cases id s) as [[[Hge|Hin] _]|(_ & _ & ->)];
        [lia|done|].
      split; [done|]. simpl.
      assert (includes (compareList s ++ [id]) id = true) as ->.
      { apply includes_true, elem_of_app. right. apply list_elem_of_here. }
      unfold removeFromCompare. simpl.
      rewrite filter_ne_app_singleton by done. by destruct s.
    + intros _ Hlen.
      destruct (addToCompare_cases id s) as [[_ ->]|(Hlt & _ & _)];
        [done|lia].
Qed.

(** X12. On the comparison page, Remove takes one id out of a list
    without duplicates.  When at least two ids remain the page requests
    the comparison of the remaining ids, in their order; when one
    remains it requests nothing and asks to select at least two. *)
Theorem remove_from_comparison (id : Z) (s : State) (loading : bool)
    (err : option string) (has : bool) :
  NoDup (compareList s) → id ∈ compareList s →
  let s' := removeFromCompare id s in
  let p := comparison_page s' loading err has in
  S (length (compareList s')) = length (compareList s)
  ∧ ((3 ≤ length (compareList s))%nat →
     ComparisonPage.effect p
     = Some (filter (λ x, x ≠ id) (compareList s)))
  ∧ ((length (compareList s) ≤ 2)%nat →
     ComparisonPage.effect p = None
     ∧ ComparisonPage.click_retry p = None
     ∧ ComparisonPage.render p
       = ComparisonPage.SelectAtLeastTwo (length (compareList s) - 1)).
Proof.
  intros Hnd Hin s' p. subst s' p.
  pose proof (length_filter_ne_NoDup _ id Hnd Hin) as Hlen.
  split; [done|]. split.
  - intros H3. unfold ComparisonPage.effect, comparison_page. simpl.
    destruct (2 <=? _) eqn:E; [done|]. lia.
  - intros H2.
    unfold ComparisonPage.effect, ComparisonPage.click_retry,
      ComparisonPage.render, comparison_page. simpl.
    destruct (2 <=? _) eqn:E; [lia|].
    destruct (_ <? 2) eqn:E'; [|lia].
    split; [done|]. split; [done|]. f_equal. lia.
Qed.

End catalog_facts.

(** ** The setup store and the setup page *)

Section setup_facts.
Import SetupStore SetupActions.
Context {Recommendations SetupPricing A : Type}.

Local Abbreviation State := (SetupState Recommendations SetupPricing).

(** X13. The setup page starts the generation and the pricing request
    together; both write the loading flag and the error of the one store.
    Whatever the order in which the two answers arrive, the store ends
    with the same recommendations, pricing and transcript and is no
    longer loading, and unless both fail it ends the same altogether;
    when both fail the error is that of the later answer.  After the first
    answer the store already reads as not loading. *)
Theorem generation_and_pricing_commute
    (r1 : api_result Recommendations) (r2 : api_result SetupPricing)
    (s : State) :
  let gp := generateRecommendations_resume r1 (fetchPricing_resume r2 s) in
  let pg := fetchPricing_resume r2 (generateRecommendations_resume r1 s) in
  (recommendations gp = recommendations pg ∧ pricing gp = pricing pg
   ∧ chatHistory gp = chatHistory pg
   ∧ isLoading gp = false ∧ isLoading pg = false)
  ∧ isLoading (fetchPricing_resume r2 s) = false
  ∧ isLoading (generateRecommendations_resume r1 s) = false
  ∧ match r1, r2 with
    | Rejected, Rejected =>
        error gp = Some "Failed to generate recommendations"
        ∧ error pg = Some "Failed to fetch pricing"
    | _, _ => gp = pg
    end.
Proof. intros gp pg. subst gp pg. by destruct r1, r2. Qed.

(** X14. A failure of the chat, of the pricing request or of an export
    leaves the recommendations in the store but hides them: as the error
    is set and the store is not loading, the recommendations tab shows
    the error with its Retry button instead of the list, and Retry
    regenerates.  A later chat call, answered or not, does not clear the
    error. *)
Theorem failure_hides_recommendations (s0 s1 : State) (k : ChatPending)
    (kind : ExportKind) (setupId : option string) (completed : bool)
    (tab : SetupPage.Tab) :
  s1 = fst (sendChatMessage_resume k Rejected s0)
  ∨ s1 = fetchPricing_resume Rejected s0
  ∨ s1 = fst (export_resume (A := A) kind Rejected s0) →
  recommendations s1 = recommendations s0
  ∧ SetupPage.panel (setup_page setupId completed s1 tab)
    = SetupPage.ErrorWithRetry
  ∧ (completed = true →
     SetupPage.click_retry
       (setup_page setupId completed s1 SetupPage.TabRecommendations)
     = SetupPage.regenerate
         (setup_page setupId completed s1 SetupPage.TabRecommendations))
  ∧ (∀ api id message,
       is_Some (error (fst (sendChatMessage api id message s1)))).
Proof.
  intros Hs1.
  assert (recommendations s1 = recommendations s0 ∧ isLoading s1 = false
          ∧ truthy (error s1) = true) as (Hrec & Hload & Herr).
  { destruct Hs1 as [-> | [-> | ->]]; [done|done|by destruct kind]. }
  split; [done|].
  assert (SetupPage.panel (setup_page setupId completed s1 tab)
          = SetupPage.ErrorWithRetry) as Hpanel.
  { unfold SetupPage.panel, setup_page. simpl. by rewrite Hload, Herr. }
  split; [done|]. split.
  - intros ->. unfold SetupPage.click_retry, SetupPage.render. simpl.
    unfold SetupPage.panel. simpl. by rewrite Hload, Herr.
  - intros api id message. unfold sendChatMessage. simpl.
    destruct (api _); simpl; [|by eexists].
    destruct (error s1); [by eexists|done].
Qed.

(** X15. Two chat calls that overlap lose an answer.  When the second
    call starts before the first is answered, and the answers arrive in
    order, the transcript ends with the two user messages and the second
    answer only; when the second answer arrives first, the transcript
    ends with the first exchange only. *)
Theorem overlapping_chat_calls_lose_an_answer (id m1 m2 : string)
    (r1 r2 : api_result string) (s : State) :
  let b1 := sendChatMessage_begin id m1 s in
  let b2 := sendChatMessage_begin id m2 (fst b1) in
  let in_order :=
    sendChatMessage_resume (snd b2) r2
      (fst (sendChatMessage_resume (snd b1) r1 (fst b2))) in
  let reversed :=
    sendChatMessage_resume (snd b1) r1
      (fst (sendChatMessage_resume (snd b2) r2 (fst b2))) in
  chatHistory (fst in_order)
  = chatHistory s
    ++ [mkMessage user m1; mkMessage user m2;
        mkMessage assistant (snd in_order)]
  ∧ chatHistory (fst reversed)
    = chatHistory s
      ++ [mkMessage user m1; mkMessage assistant (snd reversed)].
Proof.
  intros b1 b2 in_order reversed. subst b1 b2 in_order reversed.
  destruct r1, r2; simpl; by rewrite <- !app_assoc.
Qed.

(** X16. Calls made one after the other replay the transcript: the
    request of the second call carries the transcript of the store with
    the whole first exchange.  After a failed call that exchange ends
    with the apology, which is then sent to the service as an assistant
    message. *)
Theorem next_chat_call_replays_exchange
    (api : ChatRequest → api_result string) (id m1 m2 : string) (s : State) :
  let first := sendChatMessage api id m1 s in
  let req2 := request (snd (sendChatMessage_begin id m2 (fst first))) in
  chat_history req2
  = chatHistory s ++ [mkMessage user m1; mkMessage assistant (snd first)]
  ∧ chat_message req2 = m2
  ∧ (api (mkChatRequest id m1 (chatHistory s)) = Rejected →
     snd first = errorMessage
     ∧ mkMessage assistant errorMessage ∈ chat_history req2).
Proof.
  intros first req2. subst first req2.
  rewrite sendChatMessage_begin_request. simpl.
  unfold sendChatMessage.
  pose proof (sendChatMessage_begin_request id m1 s) as Hreq.
  destruct (sendChatMessage_begin id m1 s) as [s1 k] eqn:E.
  simpl in Hreq. rewrite Hreq.
  unfold sendChatMessage_begin in E. injection E as <- <-.
  destruct (api (mkChatRequest id m1 (chatHistory s))) eqn:Ea; simpl;
    rewrite <- app_assoc; simpl.
  - done.
  - split; [done|]. split; [done|]. intros _. split; [done|].
    apply elem_of_app. right. apply list_elem_of_further, list_elem_of_here.
Qed.

(** X17. An export never changes the recommendations, the pricing or the
    transcript.  A click on a disabled button, or without a setup id,
    does nothing.  Otherwise a successful PDF or JSON export is downloaded
    under a name made of the setup id and a successful shopping list is
    dropped; a failed export records its error in the store, and the page
    logs it for PDF and JSON but leaves the rejection of the shopping list
    unhandled. *)
Theorem export_outcomes (api : string → api_result A) (kind : ExportKind)
    (setupId : option string) (s : State) :
  let out := click_export api kind setupId s in
  (recommendations (fst out) = recommendations s
   ∧ pricing (fst out) = pricing s
   ∧ chatHistory (fst out) = chatHistory s)
  ∧ (isLoading s = true ∨ truthy setupId = false → out = (s, NothingDone))
  ∧ (∀ id, isLoading s = false → truthy_string setupId = Some id →
     isLoading (fst out) = false
     ∧ match api id with
       | Resolved _ =>
           error (fst out) = None
           ∧ snd out
             = match kind with
               | ExportPdf => Downloaded ("so101-setup-" ++ id ++ ".pdf")
               | ExportJson => Downloaded ("so101-setup-" ++ id ++ ".json")
               | ExportShoppingList => ResultDropped
               end
       | Rejected =>
           error (fst out) = Some (export_failure kind)
           ∧ snd out
             = match kind with
               | ExportShoppingList => UnhandledRejection
               | _ => ErrorLogged
               end
       end).
Proof.
  intros out. subst out. unfold click_export. split; [|split].
  - destruct (isLoading s); [done|].
    destruct (truthy_string setupId); [|done].
    unfold export. simpl. by destruct (api s0).
  - intros [Hl | Ht]; [by rewrite Hl|].
    rewrite (truthy_string_None _ Ht). by destruct (isLoading s).
  - intros id -> ->. unfold export. simpl.
    destruct (api id); by destruct kind.
Qed.

(** X18. A generation that fails keeps the recommendations, the pricing
    and the transcript of the store; the recommendations tab then shows
    the error, and Retry asks for the recommendations of the same setup.
    When the retry succeeds the store holds its recommendations without
    an error and the tab shows the list. *)
Theorem failed_generation_can_be_retried (id : string)
    (data : Recommendations) (s : State) :
  truthy (Some id) = true →
  let failed :=
    generateRecommendations_resume Rejected
      (fst (generateRecommendations_begin id s)) in
  let page :=
    setup_page (Some id) true failed SetupPage.TabRecommendations in
  let retried :=
    generateRecommendations_resume (Resolved data)
      (fst (generateRecommendations_begin id failed)) in
  (recommendations failed = recommendations s ∧ pricing failed = pricing s
   ∧ chatHistory failed = chatHistory s)
  ∧ SetupPage.panel page = SetupPage.ErrorWithRetry
  ∧ SetupPage.calls page SetupPage.RetryClicked
    = [SetupPage.GenerateRecommendations id]
  ∧ recommendations retried = Some data ∧ error retried = None
  ∧ SetupPage.panel
      (setup_page (Some id) true retried SetupPage.TabRecommendations)
    = SetupPage.RecommendationList.
Proof.
  intros Hid failed page retried. subst failed page retried.
  destruct id as [|c id]; [discriminate Hid|]. done.
Qed.

End setup_facts.

Section setup_page_pricing.
Import SetupPage.

(** X20. The setup page fetches the pricing only together with the first
    generation: a pricing request comes from the effect alone, on a
    completed wizard without recommendations, next to the generation
    request for the same setup.  Retry and Refresh Recommendations
    regenerate without fetching the pricing again, and once the store has
    recommendations no event of the page fetches it. *)
Theorem pricing_fetched_with_first_generation_only (p : PageState) :
  (∀ e id, FetchPricing id ∈ calls p e →
     e = EffectRuns ∧ has_recommendations p = false
     ∧ wizardCompleted p = true
     ∧ calls p e = [GenerateRecommendations id; FetchPricing id])
  ∧ (has_recommendations p = true → ∀ e id, FetchPricing id ∉ calls p e).
Proof.
  assert (∀ e id, FetchPricing id ∈ calls p e →
            e = EffectRuns ∧ has_recommendations p = false
            ∧ wizardCompleted p = true
            ∧ calls p e = [GenerateRecommendations id; FetchPricing id])
    as Hmain.
  { intros e id Hin. destruct e; simpl in *.
    - unfold effect in *.
      destruct (truthy_string (setupId p)) as [id'|];
        [|by apply elem_of_nil in Hin].
      destruct (wizardCompleted p), (has_recommendations p); simpl in *;
        try (by apply elem_of_nil in Hin).
      apply elem_of_cons in Hin as [[=]|Hin].
      by apply list_elem_of_singleton in Hin as [= ->].
    - exfalso. unfold click_retry, regenerate in Hin.
      destruct (render p) as [|[] [] ?]; try (by apply elem_of_nil in Hin).
      destruct (truthy_string (setupId p));
        [|by apply elem_of_nil in Hin].
      by apply list_elem_of_singleton in Hin.
    - exfalso. unfold click_refresh, regenerate in Hin.
      destruct (render p) as [|[] ? []]; try (by apply elem_of_nil in Hin).
      destruct (truthy_string (setupId p));
        [|by apply elem_of_nil in Hin].
      by apply list_elem_of_singleton in Hin. }
  split; [done|].
  intros Hrec e id Hin. apply Hmain in Hin as (_ & Hno & _). congruence.
Qed.

End setup_page_pricing.

Lemma pricing_fetched_with_first_generation_only_witness :
  SetupPage.calls
    (SetupPage.mkPage (Some "s-1") true false false None
       SetupPage.TabRecommendations)
    SetupPage.EffectRuns
  = [SetupPage.GenerateRecommendations "s-1"; SetupPage.FetchPricing "s-1"].
Proof.
  apply (pricing_fetched_with_first_generation_only
           (SetupPage.mkPage (Some "s-1") true false false None
              SetupPage.TabRecommendations)).
  simpl. apply list_elem_of_further, list_elem_of_here.
Defined.

(** ** The further properties at concrete stores *)

Section further_witnesses.
Import ComponentStore Catalog SetupStore SetupActions MoreExamples.

Lemma pagination_stays_in_range_witness :
  page (filters (fst (click_page_button NextPage catalog_page2))) = 3
  ∧ snd (click_page_button NextPage catalog_page2)
    = Some (mkFilters None (Some "motors") None None None None None None 3
              20).
Proof.
  destruct (pagination_stays_in_range NextPage catalog_page2)
    as (_ & _ & _ & _ & H).
  - simpl. lia.
  - destruct (snd (click_page_button NextPage catalog_page2)) as [req|] eqn:E;
      [|discriminate E].
    destruct H as [-> Hp]. split; [exact Hp | reflexivity].
Defined.

Lemma selection_has_no_duplicate_ids_witness :
  selectComponent fst (11, "another record") catalog_page2 = catalog_page2
  ∧ deselectComponent fst 12 (selectComponent fst (12, "SCS0009")
                                catalog_page2)
    = catalog_page2.
Proof.
  split.
  - apply (selection_has_no_duplicate_ids fst (11, "another record") 0
             catalog_page2).
    + apply (bool_decide_unpack _). vm_compute. exact I.
    + apply (bool_decide_unpack _). vm_compute. exact I.
  - apply (selection_has_no_duplicate_ids fst (12, "SCS0009") 0
             catalog_page2).
    + apply (bool_decide_unpack _). vm_compute. exact I.
    + apply (bool_decide_unpack _). vm_compute. exact I.
Defined.

Lemma compare_button_toggles_witness :
  compareList (click_compare 12 catalog_page2) = [11; 13]
  ∧ compareList (click_compare 12 (click_compare 12 catalog_page2))
    = [11; 13; 12].
Proof.
  destruct (compare_button_toggles 12 catalog_page2) as (_ & H & _).
  - split; [|simpl; lia]. apply (bool_decide_unpack _). vm_compute. exact I.
  - destruct H as (H1 & _ & H2).
    + apply (bool_decide_unpack _). vm_compute. exact I.
    + split; [exact H1 | exact H2].
Defined.

Lemma remove_from_comparison_witness :
  ComparisonPage.effect
    (comparison_page (removeFromCompare 12 catalog_page2) false None true)
  = Some [11; 13].
Proof.
  apply (remove_from_comparison 12 catalog_page2 false None true).
  - apply (bool_decide_unpack _). vm_compute. exact I.
  - apply (bool_decide_unpack _). vm_compute. exact I.
  - simpl. lia.
Defined.

Lemma failure_hides_recommendations_witness :
  recommendations setup_after_chat_failure
  = Some "Six servos and a driver board."
  ∧ SetupPage.panel
      (setup_page (Some "s-1") true setup_after_chat_failure
         SetupPage.TabRecommendations)
    = SetupPage.ErrorWithRetry.
Proof.
  destruct (failure_hides_recommendations (A := unit)
              (mkState (Some "Six servos and a driver board.") None
                 [mkMessage user "Which servo?"] true None)
              setup_after_chat_failure
              (mkPending [mkMessage user "Which servo?"]
                 (mkChatRequest "s-1" "Which servo?" []))
              ExportPdf (Some "s-1") true SetupPage.TabRecommendations)
    as (H1 & H2 & _).
  - left. reflexivity.
  - split; [exact H1 | exact H2].
Defined.

Lemma next_chat_call_replays_exchange_witness :
  mkMessage assistant errorMessage
  ∈ chat_history
      (request
         (snd (sendChatMessage_begin "s-1" "And the driver?"
                 (fst (sendChatMessage (λ _, Rejected) "s-1" "Which servo?"
                         setup_ready))))).
Proof.
  apply (next_chat_call_replays_exchange (λ _, Rejected) "s-1" "Which servo?"
           "And the driver?" setup_ready).
  reflexivity.
Defined.

Lemma export_outcomes_witness :
  snd (click_export (λ _, Rejected (A := unit)) ExportShoppingList
         (Some "s-1") setup_ready)
  = UnhandledRejection
  ∧ snd (click_export (λ _, Resolved tt) ExportPdf (Some "s-1") setup_ready)
    = Downloaded "so101-setup-s-1.pdf".
Proof.
  split.
  - apply (export_outcomes (λ _, Rejected (A := unit)) ExportShoppingList
             (Some "s-1") setup_ready) with (id := "s-1"); reflexivity.
  - apply (export_outcomes (λ _, Resolved tt) ExportPdf (Some "s-1")
             setup_ready) with (id := "s-1"); reflexivity.
Defined.

Lemma failed_generation_can_be_retried_witness :
  SetupPage.calls
    (setup_page (Some "s-1") true
       (generateRecommendations_resume Rejected
          (fst (generateRecommendations_begin "s-1" setup_ready)))
       SetupPage.TabRecommendations)
    SetupPage.RetryClicked
  = [SetupPage.GenerateRecommendations "s-1"].
Proof.
  apply (failed_generation_can_be_retried "s-1"
           "Six servos, a driver board and a camera." setup_ready).
  reflexivity.
Defined.

End further_witnesses.
